(** * Mycodo sensor inputs: BMP280 and DS1822

    A shallow embedding of [mycodo/inputs/bmp280.py] and
    [mycodo/inputs/ds1822.py] (Python 3 semantics), together with the
    properties of the acquisition layer.

    Conventions of the embedding:
    - Python [int] is [Z]; [>>] is [Z.shiftr] (floor), [<<] is [Z.shiftl].
    - A finite Python [float] is the rational [Q] it denotes exactly;
      operations that round are written with [b64], the rounding to the
      nearest IEEE-754 binary64 value, ties to even.
    - A method is a computation in an exception-and-state monad; the state
      holds the instance, the chronological trace of bus traffic, sleeps
      and log records, and the heap of the dict objects that the module
      level [measurements_dict] refers to.
    - The bus devices are opaque: their answers are given by an oracle that
      sees the whole trace so far. *)

From Stdlib Require Import ZArith QArith Qabs Qcanon Lia List.
From stdpp Require Import base option gmap strings.

Local Open Scope Z_scope.

(** ** Python values *)

Inductive pyval : Type :=
| PyNone
| PyInt (z : Z)
| PyFloat (q : Q)
| PyStr (s : string).

(** Exceptions that the modelled code can meet. *)
Inductive exn : Type :=
| IOError              (* a bus transaction failed *)
| SensorError (msg : string) (* raised by the 1-Wire collaborator *)
| OverflowError
| ZeroDivisionError
| TypeError
| KeyError.

(** Numeric value of an [int] or a [float]. *)
Definition py_num (v : pyval) : option Q :=
  match v with
  | PyInt z => Some (inject_Z z)
  | PyFloat q => Some q
  | _ => None
  end.

(** [a == b]: numbers compare by value, whatever their type. *)
Definition py_eq (a b : pyval) : bool :=
  match py_num a, py_num b with
  | Some x, Some y => Qeq_bool x y
  | _, _ =>
      match a, b with
      | PyNone, PyNone => true
      | PyStr x, PyStr y => bool_decide (x = y)
      | _, _ => false
      end
  end.

(** [a > b]: defined on numbers only. *)
Definition py_gt (a b : pyval) : option bool :=
  match py_num a, py_num b with
  | Some x, Some y => Some (negb (Qle_bool x y))
  | _, _ => None
  end.

(** ** Binary64 arithmetic *)

Module Float.

(** [2^e] for any integer exponent. *)
Definition pow2 (e : Z) : Q :=
  if 0 <=? e then inject_Z (2 ^ e) else 1 # Z.to_pos (2 ^ (- e)).

(** Nearest integer to [n/d], ties to even, for [0 <= n] and [0 < d]. *)
Definition round_half_even (n d : Z) : Z :=
  let q := n / d in
  let r := n mod d in
  if 2 * r <? d then q
  else if d <? 2 * r then q + 1
  else if Z.even q then q else q + 1.

(** [floor (log2 (n/d))] for [0 < n] and [0 < d]. *)
Definition ilog2 (n d : Z) : Z :=
  let k := Z.log2 n - Z.log2 d in
  let above := if 0 <=? k then d * 2 ^ k <=? n else d <=? n * 2 ^ (- k) in
  if above then k else k - 1.

(** The binary64 value nearest to [n/d] for [0 < n] and [0 < d]:
    mantissa and exponent of the unit in the last place, or [None] when
    the rounded value exceeds the largest finite double. *)
Definition round_pos (n d : Z) : option (Z * Z) :=
  let u := Z.max (ilog2 n d - 52) (- 1074) in
  let m := if 0 <=? u then round_half_even n (d * 2 ^ u)
           else round_half_even (n * 2 ^ (- u)) d in
  if (971 <? u) || ((u =? 971) && (2 ^ 53 <=? m)) then None
  else Some (m, u).

(** Rounding of a rational to binary64; the double is given in lowest
    terms, so that equal doubles are equal terms. *)
Definition b64 (x : Q) : option Q :=
  let n := Qnum x in
  let d := Zpos (Qden x) in
  if n =? 0 then Some 0%Q
  else match round_pos (Z.abs n) d with
       | Some (m, u) => Some (Qred (inject_Z (Z.sgn n * m) * pow2 u))
       | None => None
       end.

(** [float(z)]: [OverflowError] when [z] is too large. *)
Definition of_int (z : Z) : option Q := b64 (inject_Z z).

(** [int(x)]: truncation toward zero. *)
Definition to_int (x : Q) : Z := Z.quot (Qnum x) (Zpos (Qden x)).

End Float.

(** ** Effects: bus traffic, sleeps, log records, shared dict objects *)

(** Transactions on the register-addressed bus ([Adafruit_GPIO.I2C]). *)
Inductive i2c_op : Type :=
| Write8 (reg val : Z)
| ReadU8 (reg : Z).

Inductive loglevel : Type := DEBUG | ERROR | EXCEPTION.

(** What a call leaves behind, in chronological order.  A bus event keeps
    the answer of the device; [None] is a failed transaction. *)
Inductive event : Type :=
| EvI2C (op : i2c_op) (res : option Z)
| EvW1 (res : string + Q)
| EvSleep (secs : Q)
| EvLog (lvl : loglevel) (msg : string) (arg : pyval).

(** Addresses of dict objects. *)
Abbreviation loc := nat.

(** The part of the process state that outlives a call: the trace and the
    heap of dict objects.  The inner dicts of a module's
    [measurements_dict] live here, since [dict.copy()] is shallow and
    every copy keeps referring to them. *)
Record world : Type := World {
  trace : list event;
  heap : gmap loc (gmap string pyval)
}.

Definition emit (e : event) (w : world) : world :=
  World (trace w ++ [e]) (heap w).

Definition set_heap (h : gmap loc (gmap string pyval)) (w : world) : world :=
  World (trace w) h.

(** Result of running a method: a value or a raised exception. *)
Inductive outcome (A : Type) : Type :=
| Ret (a : A)
| Raise (e : exn).
Arguments Ret {A} a.
Arguments Raise {A} e.

(** Computations over a state [S] that may raise. *)
Definition M (S A : Type) : Type := S -> outcome A * S.

#[global] Instance M_ret {S} : MRet (M S) := λ A a s, (Ret a, s).
#[global] Instance M_bind {S} : MBind (M S) := λ A B f c s,
  match c s with
  | (Ret a, s') => f a s'
  | (Raise e, s') => (Raise e, s')
  end.

Definition raise {S A} (e : exn) : M S A := λ s, (Raise e, s).

(** [try: c except Exception as e: h e] *)
Definition try_except {S A} (c : M S A) (h : exn -> M S A) : M S A := λ s,
  match c s with
  | (Ret a, s') => (Ret a, s')
  | (Raise e, s') => h e s'
  end.

(** [if b: c] *)
Definition when {S} (b : bool) (c : M S unit) : M S unit :=
  if b then c else mret tt.

(** [d[k][field] = v] on an outer dict [d] of references: the inner dict
    object is updated in place. *)
Definition setitem2 (d : gmap Z loc) (k : Z) (field : string) (v : pyval)
    : M world unit := λ w,
  match d !! k with
  | Some l =>
      match heap w !! l with
      | Some inner => (Ret tt, set_heap (<[l := <[field := v]> inner]> (heap w)) w)
      | None => (Raise KeyError, w)
      end
  | None => (Raise KeyError, w)
  end.

(** The entry [field] of the inner dict that [d[k]] refers to, if any. *)
Definition lookup2 (w : world) (d : gmap Z loc) (k : Z) (field : string)
    : option pyval :=
  match d !! k with
  | Some l =>
      match heap w !! l with
      | Some inner => inner !! field
      | None => None
      end
  | None => None
  end.

(** [d[k][field]] *)
Definition getitem2 (d : gmap Z loc) (k : Z) (field : string)
    : M world pyval := λ w,
  match lookup2 w d k field with
  | Some v => (Ret v, w)
  | None => (Raise KeyError, w)
  end.

(** What a reader of the record [d] finds in channel [k] under ['value']. *)
Definition record_value (w : world) (d : gmap Z loc) (k : Z) : option pyval :=
  lookup2 w d k "value".

(** [d.copy()] on an outer dict: a new outer dict holding the same
    references.  Outer dicts are never mutated in the modelled code, so a
    new outer dict is represented by its contents. *)
Definition dict_copy {S} (d : gmap Z loc) : M S (gmap Z loc) := mret d.

(** * mycodo/inputs/bmp280.py *)

Module BMP280.

(** Channels of the record, with the inner dict object of each. *)
Definition measurements_dict : gmap Z loc :=
  <[0 := 0%nat]> (<[1 := 1%nat]> (<[2 := 2%nat]> ∅)).

(** The inner dict objects as the module's import creates them. *)
Definition import_heap : gmap loc (gmap string pyval) :=
  <[0%nat := <["measurement" := PyStr "pressure"]> (<["unit" := PyStr "Pa"]> ∅)]>
 (<[1%nat := <["measurement" := PyStr "temperature"]> (<["unit" := PyStr "C"]> ∅)]>
 (<[2%nat := <["measurement" := PyStr "altitude"]> (<["unit" := PyStr "m"]> ∅)]> ∅)).

(** Operating modes *)
Definition BMP280_ULTRALOWPOWER := 0.
Definition BMP280_STANDARD := 1.
Definition BMP280_HIGHRES := 2.
Definition BMP280_ULTRAHIGHRES := 3.

Definition BMP280_REGISTER_CONTROL := 0xF4.
(** Pressure measurements *)
Definition BMP280_REGISTER_PRESSUREDATA_MSB := 0xF7.
Definition BMP280_REGISTER_PRESSUREDATA_LSB := 0xF8.
Definition BMP280_REGISTER_PRESSUREDATA_XLSB := 0xF9.
(** Temperature measurements *)
Definition BMP280_REGISTER_TEMPDATA_MSB := 0xFA.
Definition BMP280_REGISTER_TEMPDATA_LSB := 0xFB.
Definition BMP280_REGISTER_TEMPDATA_XLSB := 0xFC.

(** Commands *)
Definition BMP280_READCMD := 0x3F.

(** The attributes of an instance that the read paths use.
    [enabled_channels] stands for the rows of [device_measurements]. *)
Record InputModule : Type := Build {
  _mode : Z;
  cal_REGISTER_DIG_T1 : Z;
  cal_REGISTER_DIG_T2 : Z;
  cal_REGISTER_DIG_T3 : Z;
  cal_REGISTER_DIG_P1 : Z;
  cal_REGISTER_DIG_P2 : Z;
  cal_REGISTER_DIG_P3 : Z;
  cal_REGISTER_DIG_P4 : Z;
  cal_REGISTER_DIG_P5 : Z;
  cal_REGISTER_DIG_P6 : Z;
  cal_REGISTER_DIG_P7 : Z;
  cal_REGISTER_DIG_P8 : Z;
  cal_REGISTER_DIG_P9 : Z;
  _tfine : Z;
  enabled_channels : Z -> bool
}.

(** [self._tfine = v] *)
Definition set_tfine (v : Z) (s : InputModule) : InputModule :=
  Build (_mode s)
    (cal_REGISTER_DIG_T1 s) (cal_REGISTER_DIG_T2 s) (cal_REGISTER_DIG_T3 s)
    (cal_REGISTER_DIG_P1 s) (cal_REGISTER_DIG_P2 s) (cal_REGISTER_DIG_P3 s)
    (cal_REGISTER_DIG_P4 s) (cal_REGISTER_DIG_P5 s) (cal_REGISTER_DIG_P6 s)
    (cal_REGISTER_DIG_P7 s) (cal_REGISTER_DIG_P8 s) (cal_REGISTER_DIG_P9 s)
    v (enabled_channels s).

(** [_load_datasheet_calibration]: data from the datasheet example. *)
Definition _load_datasheet_calibration (s : InputModule) : InputModule :=
  Build (_mode s)
    27504 26435 (-1000)
    36477 (-10685) 3024 2855 140 (-7) 15500 (-14600) 6000
    (_tfine s) (enabled_channels s).

(** State of a method call: the instance and the world. *)
Definition state : Type := InputModule * world.

Definition get_self : M state InputModule := λ st, (Ret (fst st), st).

Definition put_self (f : InputModule -> InputModule) : M state unit :=
  λ st, (Ret tt, (f (fst st), snd st)).

Definition lift_world {A} (c : M world A) : M state A := λ st,
  let (r, w) := c (snd st) in (r, (fst st, w)).

Definition do_emit (e : event) : M state unit :=
  λ st, (Ret tt, (fst st, emit e (snd st))).

(** [time.sleep(secs)] *)
Definition time_sleep (secs : Q) : M state unit := do_emit (EvSleep secs).

(** [self.logger.debug(msg.format(arg))] *)
Definition logger_debug (msg : string) (arg : pyval) : M state unit :=
  do_emit (EvLog DEBUG msg arg).

(** Modelled from the spec: [AbstractInput.is_enabled] is not in the
    sources; it is the "enabled-channel predicate consulted before
    populating each channel", answered from the instance's
    measurement rows. *)
Definition is_enabled (channel : Z) : M state bool := λ st,
  (Ret (enabled_channels (fst st) channel), st).

(** The fixed-point formulas of [read_temperature]. *)
Definition TMP_PART1 (T1 T2 adc_T : Z) : Z :=
  Z.shiftr ((Z.shiftr adc_T 3 - Z.shiftl T1 1) * T2) 11.

Definition TMP_PART2 (T1 T3 adc_T : Z) : Z :=
  Z.shiftr (Z.shiftr ((Z.shiftr adc_T 4 - T1) * (Z.shiftr adc_T 4 - T1)) 12 * T3) 14.

Definition TMP_FINE (s : InputModule) (adc_T : Z) : Z :=
  TMP_PART1 (cal_REGISTER_DIG_T1 s) (cal_REGISTER_DIG_T2 s) adc_T
  + TMP_PART2 (cal_REGISTER_DIG_T1 s) (cal_REGISTER_DIG_T3 s) adc_T.

(** [z / c] for an [int] [z] and a [float] constant [c >= 1]: [z] is
    converted first, which raises when it is too large; the quotient of
    a finite double by such a constant is finite. *)
Definition int_div_float {S} (z : Z) (c : Q) : M S Q :=
  match Float.of_int z with
  | Some x =>
      match Float.b64 (x / c) with
      | Some r => mret r
      | None => raise OverflowError
      end
  | None => raise OverflowError
  end.

(** [int(a / b)] for two [int]s: true division is correctly rounded. *)
Definition int_of_truediv {S} (a b : Z) : M S Z :=
  if b =? 0 then raise ZeroDivisionError
  else match Float.b64 (Qmake a 1 / Qmake b 1) with
       | Some x => mret (Float.to_int x)
       | None => raise OverflowError
       end.

Section Device.

(** The device on the bus: its answer to a transaction, given all
    that happened before.  [None] is a failed transaction. *)
Variable i2c : list event -> i2c_op -> option Z.

(** What [mycodo.inputs.sensorutils.calculate_altitude] computes. *)
Variable calculate_altitude : pyval -> pyval.

Definition bus (op : i2c_op) : M state Z := λ st,
  let r := i2c (trace (snd st)) op in
  let st' := (fst st, emit (EvI2C op r) (snd st)) in
  match r with
  | Some v => (Ret v, st')
  | None => (Raise IOError, st')
  end.

Definition write8 (reg val : Z) : M state unit := bus (Write8 reg val) ;; mret tt.
Definition readU8 (reg : Z) : M state Z := bus (ReadU8 reg).

(** The settle delay of [read_raw_temp] and [read_raw_pressure]. *)
Definition settle (mode : Z) : M state unit :=
  if mode =? BMP280_ULTRALOWPOWER then time_sleep (5 # 1000)
  else if mode =? BMP280_HIGHRES then time_sleep (14 # 1000)
  else if mode =? BMP280_ULTRAHIGHRES then time_sleep (26 # 1000)
  else time_sleep (8 # 1000).

Definition combine (msb lsb xlsb : Z) : Z :=
  Z.shiftr (Z.lor (Z.shiftl (Z.lor (Z.shiftl msb 8) lsb) 8) xlsb) 4.

Definition read_raw_temp : M state Z :=
  self ← get_self;
  write8 BMP280_REGISTER_CONTROL (BMP280_READCMD + Z.shiftl (_mode self) 6) ;;
  settle (_mode self) ;;
  msb ← readU8 BMP280_REGISTER_TEMPDATA_MSB;
  lsb ← readU8 BMP280_REGISTER_TEMPDATA_LSB;
  xlsb ← readU8 BMP280_REGISTER_TEMPDATA_XLSB;
  let raw := combine msb lsb xlsb in
  logger_debug "Raw temperature" (PyInt raw) ;;
  mret raw.

Definition read_raw_pressure : M state Z :=
  self ← get_self;
  write8 BMP280_REGISTER_CONTROL (BMP280_READCMD + Z.shiftl (_mode self) 6) ;;
  settle (_mode self) ;;
  msb ← readU8 BMP280_REGISTER_PRESSUREDATA_MSB;
  lsb ← readU8 BMP280_REGISTER_PRESSUREDATA_LSB;
  xlsb ← readU8 BMP280_REGISTER_PRESSUREDATA_XLSB;
  let raw := combine msb lsb xlsb in
  logger_debug "Raw pressure" (PyInt raw) ;;
  mret raw.

(** The argument of the sleep that [settle] performs. *)
Definition settle_secs (mode : Z) : Q :=
  if mode =? BMP280_ULTRALOWPOWER then 5 # 1000
  else if mode =? BMP280_HIGHRES then 14 # 1000
  else if mode =? BMP280_ULTRAHIGHRES then 26 # 1000
  else 8 # 1000.

(** The part that both raw reads share after the delay: the three
    data bytes from [msb_reg] on, combined and logged. *)
Definition read_data (msb_reg : Z) (what : string) : M state Z :=
  msb ← readU8 msb_reg;
  lsb ← readU8 (msb_reg + 1);
  xlsb ← readU8 (msb_reg + 2);
  let raw := combine msb lsb xlsb in
  logger_debug what (PyInt raw) ;;
  mret raw.

Definition read_temperature : M state Q :=
  adc_T ← read_raw_temp;
  self ← get_self;
  let fine := TMP_FINE self adc_T in
  put_self (set_tfine fine) ;;
  temp ← int_div_float (Z.shiftr (fine * 5 + 128) 8) 100;
  logger_debug "Calibrated temperature" (PyFloat temp) ;;
  mret temp.

(** The pressure formula from the raw value on, with the instance's
    [_tfine]. *)
Definition pressure_var1 (s : InputModule) : Z :=
  let var1 := _tfine s - 128000 in
  let var1 := Z.shiftr (var1 * var1 * cal_REGISTER_DIG_P3 s) 8
              + Z.shiftl (var1 * cal_REGISTER_DIG_P2 s) 12 in
  Z.shiftr ((Z.shiftl 1 47 + var1) * cal_REGISTER_DIG_P1 s) 33.

Definition pressure_var2 (s : InputModule) : Z :=
  let var1 := _tfine s - 128000 in
  let var2 := var1 * var1 * cal_REGISTER_DIG_P6 s in
  let var2 := var2 + Z.shiftl (var1 * cal_REGISTER_DIG_P5 s) 17 in
  var2 + Z.shiftl (cal_REGISTER_DIG_P4 s) 35.

Definition compensate_pressure (adc_P : Z) : M state pyval :=
  self ← get_self;
  let var2 := pressure_var2 self in
  let var1 := pressure_var1 self in
  if var1 =? 0 then mret (PyInt 0)
  else
    let p := 1048576 - adc_P in
    p ← int_of_truediv ((Z.shiftl p 31 - var2) * 3125) var1;
    let var1 := Z.shiftr (cal_REGISTER_DIG_P9 self * Z.shiftr p 13 * Z.shiftr p 13) 25 in
    let var2 := Z.shiftr (cal_REGISTER_DIG_P8 self * p) 19 in
    let p := Z.shiftr (p + var1 + var2) 8 + Z.shiftl (cal_REGISTER_DIG_P7 self) 4 in
    r ← int_div_float p 256;
    mret (PyFloat r).

Definition read_pressure : M state pyval :=
  self ← get_self;
  when (_tfine self =? 0) (read_temperature ;; mret tt) ;;
  adc_P ← read_raw_pressure;
  compensate_pressure adc_P.

Definition get_measurement : M state (gmap Z loc) :=
  return_dict ← dict_copy measurements_dict;
  en0 ← is_enabled 0;
  when en0 (
    v ← read_pressure;
    lift_world (setitem2 return_dict 0 "value" v)) ;;
  en1 ← is_enabled 1;
  when en1 (
    v ← read_temperature;
    lift_world (setitem2 return_dict 1 "value" (PyFloat v))) ;;
  en2 ← is_enabled 2;
  when en2 (
    en0' ← is_enabled 0;
    when en0' (
      p ← lift_world (getitem2 return_dict 0 "value");
      lift_world (setitem2 return_dict 2 "value" (calculate_altitude p)))) ;;
  mret return_dict.

End Device.

(** ** Fixtures *)

(** An instance as [__init__] leaves it before calibration is loaded. *)
Definition blank (mode : Z) (enabled : Z -> bool) : InputModule :=
  Build mode 0 0 0 0 0 0 0 0 0 0 0 0 0 enabled.

(** A device whose data registers hold fixed bytes and whose bus never
    fails: [t] are the three temperature bytes, [p] the pressure ones. *)
Definition fixed_device (t p : Z * Z * Z) (_ : list event) (op : i2c_op)
    : option Z :=
  match op with
  | Write8 _ _ => Some 0
  | ReadU8 reg =>
      let '(t1, t2, t3) := t in
      let '(p1, p2, p3) := p in
      if reg =? BMP280_REGISTER_TEMPDATA_MSB then Some t1
      else if reg =? BMP280_REGISTER_TEMPDATA_LSB then Some t2
      else if reg =? BMP280_REGISTER_TEMPDATA_XLSB then Some t3
      else if reg =? BMP280_REGISTER_PRESSUREDATA_MSB then Some p1
      else if reg =? BMP280_REGISTER_PRESSUREDATA_LSB then Some p2
      else if reg =? BMP280_REGISTER_PRESSUREDATA_XLSB then Some p3
      else Some 0
  end.

(** The example of the BMP280 datasheet: raw temperature 519888
    (0x7EED0) and raw pressure 415148 (0x655AC) in the data registers,
    for which the datasheet gives 25.08 C and 100653.27 Pa. *)
Definition datasheet_device : list event -> i2c_op -> option Z :=
  fixed_device (0x7E, 0xED, 0x00) (0x65, 0x5A, 0xC0).

Definition datasheet_adc_T : Z := 519888.
Definition datasheet_adc_P : Z := 415148.
Definition datasheet_temperature : Q := 2508 # 100.
Definition datasheet_pressure : Q := 10065327 # 100.

Definition datasheet_sensor (enabled : Z -> bool) : InputModule :=
  _load_datasheet_calibration (blank BMP280_STANDARD enabled).

(** A stand-in for [calculate_altitude] in closed evaluations, where
    the altitude itself does not matter. *)
Definition altitude_stub (_ : pyval) : pyval := PyFloat 0.

(** The world right after the module has been imported. *)
Definition import_world : world := World [] import_heap.

(** [|a - b| <= eps] *)
Definition within (eps a b : Q) : Prop := (Qabs (a - b) <= eps)%Q.

(** The events of a successful raw read that writes the command byte
    [cmd], sleeps [delay] seconds and reads the register block
    [msb_reg .. msb_reg + 2]. *)
Definition raw_read_events (cmd : Z) (delay : Q) (msb_reg : Z)
    (ack msb lsb xlsb : Z) (what : string) : list event :=
  [ EvI2C (Write8 BMP280_REGISTER_CONTROL cmd) (Some ack);
    EvSleep delay;
    EvI2C (ReadU8 msb_reg) (Some msb);
    EvI2C (ReadU8 (msb_reg + 1)) (Some lsb);
    EvI2C (ReadU8 (msb_reg + 2)) (Some xlsb);
    EvLog DEBUG what (PyInt (combine msb lsb xlsb)) ].

(** The settle delays of the four modes, in milliseconds, as the
    specification tabulates them. *)
Definition settle_table_ms (mode : Z) : option Z :=
  if mode =? 0 then Some 5
  else if mode =? 1 then Some 8
  else if mode =? 2 then Some 14
  else if mode =? 3 then Some 26
  else None.

(** An event of the data read from the block at [msb_reg]. *)
Definition data_event (msb_reg : Z) (e : event) : Prop :=
  match e with
  | EvI2C (ReadU8 reg) _ => msb_reg <= reg <= msb_reg + 2
  | EvLog _ _ _ => True
  | _ => False
  end.

(** An event that reads one of the temperature data registers. *)
Definition reads_temperature (e : event) : Prop :=
  match e with
  | EvI2C (ReadU8 reg) _ =>
      BMP280_REGISTER_TEMPDATA_MSB <= reg <= BMP280_REGISTER_TEMPDATA_XLSB
  | _ => False
  end.

End BMP280.

(** * mycodo/inputs/ds1822.py *)

Module DS1822.

Definition measurements_dict : gmap Z loc := <[0 := 0%nat]> ∅.

(** The inner dict object as the module's import creates it. *)
Definition import_heap : gmap loc (gmap string pyval) :=
  <[0%nat := <["measurement" := PyStr "temperature"]> (<["unit" := PyStr "C"]> ∅)]> ∅.

(** [time.sleep(secs)] *)
Definition time_sleep (secs : Q) : M world unit := λ w, (Ret tt, emit (EvSleep secs) w).

Definition logger_error (msg : string) (arg : pyval) : M world unit :=
  λ w, (Ret tt, emit (EvLog ERROR msg arg) w).

Definition logger_exception (msg : string) (arg : pyval) : M world unit :=
  λ w, (Ret tt, emit (EvLog EXCEPTION msg arg) w).

(** [range(n)] *)
Definition range (n : Z) : list Z := map Z.of_nat (seq 0 (Z.to_nat n)).

(** [a > b] inside a method: [TypeError] on operands without order. *)
Definition gt (a b : pyval) : M world bool :=
  match py_gt a b with
  | Some r => mret r
  | None => raise TypeError
  end.

Section Device.

(** The thermometer on the 1-Wire bus: what [get_temperature] does,
    given all that happened before; either it raises, or it returns
    a reading. *)
Variable w1 : list event -> string + Q.

(** [self.sensor.get_temperature()] *)
Definition get_temperature : M world pyval := λ w,
  let r := w1 (trace w) in
  let w' := emit (EvW1 r) w in
  match r with
  | inr t => (Ret (PyFloat t), w')
  | inl msg => (Raise (SensorError msg), w')
  end.

(** One pass of the loop body for index [i]: the reading on success
    ([break]), nothing after a handled exception. *)
Definition attempt (n i : Z) : M world (option pyval) :=
  try_except
    (t ← get_temperature; mret (Some t))
    (λ e,
       when (i =? n)
         (logger_exception "raised an exception when taking a reading"
            (PyStr match e with SensorError msg => msg | _ => "" end)) ;;
       time_sleep 1 ;;
       mret None).

(** [for i in idx: try: temperature = ...; break  except ...] *)
Fixpoint attempts (n : Z) (idx : list Z) (temperature : pyval) : M world pyval :=
  match idx with
  | [] => mret temperature
  | i :: idx' =>
      r ← attempt n i;
      match r with
      | Some t => mret t
      | None => attempts n idx' temperature
      end
  end.

(** [temperature is not None and -55 > temperature > 125] *)
Definition out_of_range (temperature : pyval) : M world bool :=
  match temperature with
  | PyNone => mret false
  | _ =>
      below ← gt (PyInt (-55)) temperature;
      if (below : bool) then gt temperature (PyInt 125) else mret false
  end.

(** The result is [None] or the record. *)
Definition get_measurement : M world (option (gmap Z loc)) :=
  return_dict ← dict_copy measurements_dict;
  let n := 2 in
  temperature ← attempts n (range n) PyNone;
  if py_eq temperature (PyInt 85) then
    logger_error "Measurement returned 85 C, indicating an issue communicating with the sensor." PyNone ;;
    mret None
  else
    bad ← out_of_range temperature;
    if (bad : bool) then
      logger_error "Measurement outside the expected range of -55 C to 125 C" temperature ;;
      mret None
    else
      setitem2 return_dict 0 "value" temperature ;;
      mret (Some return_dict).

End Device.

(** ** Fixtures *)

Definition import_world : world := World [] import_heap.

(** A thermometer that answers every read with the same value. *)
Definition steady (t : Q) (_ : list event) : string + Q := inr t.

(** A thermometer whose every read fails. *)
Definition dead (_ : list event) : string + Q := inl "SensorNotReadyError".

(** A thermometer whose first read fails and that answers [t] after. *)
Definition flaky (t : Q) (tr : list event) : string + Q :=
  if existsb (λ e, match e with EvW1 _ => true | _ => false end) tr
  then inr t
  else inl "SensorNotReadyError".

End DS1822.

(** * Construction of the instances *)

(** ** bmp280.py: [__init__] and [_load_calibration] *)

Module BMP280Setup.
Import BMP280.

(** BMP280 Temperature Registers *)
Definition BMP280_REGISTER_DIG_T1 := 0x88.
Definition BMP280_REGISTER_DIG_T2 := 0x8A.
Definition BMP280_REGISTER_DIG_T3 := 0x8C.
(** BMP280 Pressure Registers *)
Definition BMP280_REGISTER_DIG_P1 := 0x8E.
Definition BMP280_REGISTER_DIG_P2 := 0x90.
Definition BMP280_REGISTER_DIG_P3 := 0x92.
Definition BMP280_REGISTER_DIG_P4 := 0x94.
Definition BMP280_REGISTER_DIG_P5 := 0x96.
Definition BMP280_REGISTER_DIG_P6 := 0x98.
Definition BMP280_REGISTER_DIG_P7 := 0x9A.
Definition BMP280_REGISTER_DIG_P8 := 0x9C.
Definition BMP280_REGISTER_DIG_P9 := 0x9E.

(** The attributes of [input_dev] that [__init__] reads. *)
Record input_dev : Type := InputDev {
  unique_id : string;
  i2c_location : string;
  i2c_bus : Z
}.

(** What construction asks of the I2C library: the device handle and
    the 16-bit little-endian register reads, unsigned and signed. *)
Inductive setup_op : Type :=
| GetI2CDevice (address busnum : Z)
| ReadU16LE (reg : Z)
| ReadS16LE (reg : Z).

(** A transaction of construction with its answer; [None] is a
    failure. *)
Inductive setup_event : Type :=
| EvSetup (op : setup_op) (res : option Z).

Inductive setup_exn : Type :=
| ValueError (msg : string)
| SetupIOError.

(** Computations of construction: a log of transactions, and a result
    or an exception. *)
Definition Setup (A : Type) : Type :=
  list setup_event -> (setup_exn + A) * list setup_event.

#[global] Instance Setup_ret : MRet Setup := λ A a log, (inr a, log).
#[global] Instance Setup_bind : MBind Setup := λ A B f c log,
  match c log with
  | (inr a, log') => f a log'
  | (inl e, log') => (inl e, log')
  end.

Definition setup_raise {A} (e : setup_exn) : Setup A := λ log, (inl e, log).

Section Device.

(** The library and the device during construction. *)
Variable dev : list setup_event -> setup_op -> option Z.

(** Python's [int(s, 16)]; [None] is its [ValueError]. *)
Variable int16 : string -> option Z.

Definition ask (op : setup_op) : Setup Z := λ log,
  let r := dev log op in
  let log' := log ++ [EvSetup op r] in
  match r with
  | Some v => (inr v, log')
  | None => (inl SetupIOError, log')
  end.

Definition readU16LE (reg : Z) : Setup Z := ask (ReadU16LE reg).
Definition readS16LE (reg : Z) : Setup Z := ask (ReadS16LE reg).

(** [_load_calibration]: the twelve words in the order read; the
    instance gets them with the given mode and channels, [_tfine]
    still to be set. *)
Definition _load_calibration (mode : Z) (enabled : Z -> bool)
    : Setup InputModule :=
  T1 ← readU16LE BMP280_REGISTER_DIG_T1;
  T2 ← readS16LE BMP280_REGISTER_DIG_T2;
  T3 ← readS16LE BMP280_REGISTER_DIG_T3;
  P1 ← readU16LE BMP280_REGISTER_DIG_P1;
  P2 ← readS16LE BMP280_REGISTER_DIG_P2;
  P3 ← readS16LE BMP280_REGISTER_DIG_P3;
  P4 ← readS16LE BMP280_REGISTER_DIG_P4;
  P5 ← readS16LE BMP280_REGISTER_DIG_P5;
  P6 ← readS16LE BMP280_REGISTER_DIG_P6;
  P7 ← readS16LE BMP280_REGISTER_DIG_P7;
  P8 ← readS16LE BMP280_REGISTER_DIG_P8;
  P9 ← readS16LE BMP280_REGISTER_DIG_P9;
  mret (Build mode T1 T2 T3 P1 P2 P3 P4 P5 P6 P7 P8 P9 0 enabled).

(** [__init__(self, input_dev, mode, testing)].  With [testing] the
    body is skipped and the object has none of the attributes
    ([None] here).  The logger and the query that yields the
    measurement rows have no effect on the attributes modelled;
    [enabled] stands for the rows. *)
Definition __init__ (input : input_dev) (enabled : Z -> bool)
    (mode : Z) (testing : bool) : Setup (option InputModule) :=
  if testing then mret None
  else
    match int16 (i2c_location input) with
    | None => setup_raise (ValueError "invalid literal for int() with base 16")
    | Some i2c_address =>
        if negb (existsb (Z.eqb mode)
                   [BMP280_ULTRALOWPOWER; BMP280_STANDARD;
                    BMP280_HIGHRES; BMP280_ULTRAHIGHRES])
        then setup_raise (ValueError "Unexpected mode value")
        else
          ask (GetI2CDevice i2c_address (i2c_bus input)) ;;
          self ← _load_calibration mode enabled;
          mret (Some (set_tfine 0 self))
    end.

(** A list of transactions done in order, up to the first that
    fails; [__init__] is such a list (see [setup_plan]). *)
Fixpoint ask_all (ops : list setup_op) : Setup (list Z) :=
  match ops with
  | [] => mret []
  | op :: ops' =>
      v ← ask op;
      vs ← ask_all ops';
      mret (v :: vs)
  end.

End Device.

(** The register reads of [_load_calibration], in the order of the
    source. *)
Definition calibration_plan : list setup_op :=
  [ ReadU16LE BMP280_REGISTER_DIG_T1; ReadS16LE BMP280_REGISTER_DIG_T2;
    ReadS16LE BMP280_REGISTER_DIG_T3; ReadU16LE BMP280_REGISTER_DIG_P1;
    ReadS16LE BMP280_REGISTER_DIG_P2; ReadS16LE BMP280_REGISTER_DIG_P3;
    ReadS16LE BMP280_REGISTER_DIG_P4; ReadS16LE BMP280_REGISTER_DIG_P5;
    ReadS16LE BMP280_REGISTER_DIG_P6; ReadS16LE BMP280_REGISTER_DIG_P7;
    ReadS16LE BMP280_REGISTER_DIG_P8; ReadS16LE BMP280_REGISTER_DIG_P9 ].

(** The transactions of [__init__], in the order of the source. *)
Definition setup_plan (address busnum : Z) : list setup_op :=
  GetI2CDevice address busnum :: calibration_plan.

(** The events of transactions [ops] that returned [vs]. *)
Definition answered (ops : list setup_op) (vs : list Z) : list setup_event :=
  zip_with (λ op v, EvSetup op (Some v)) ops vs.

(** The instance that [__init__] builds from the twelve words. *)
Definition instance_of_words (mode : Z) (enabled : Z -> bool) (ws : list Z)
    : option InputModule :=
  match ws with
  | [T1; T2; T3; P1; P2; P3; P4; P5; P6; P7; P8; P9] =>
      Some (Build mode T1 T2 T3 P1 P2 P3 P4 P5 P6 P7 P8 P9 0 enabled)
  | _ => None
  end.

(** ** Fixtures *)

(** [int(s, 16)] on the two locations that the module offers. *)
Definition int16_locations (s : string) : option Z :=
  if bool_decide (s = "0x76") then Some 0x76
  else if bool_decide (s = "0x77") then Some 0x77
  else None.

(** The 16-bit contents of the calibration registers in the datasheet
    example. *)
Definition datasheet_word (reg : Z) : Z :=
  (if reg =? 0x88 then 27504
   else if reg =? 0x8A then 26435
   else if reg =? 0x8C then -1000
   else if reg =? 0x8E then 36477
   else if reg =? 0x90 then -10685
   else if reg =? 0x92 then 3024
   else if reg =? 0x94 then 2855
   else if reg =? 0x96 then 140
   else if reg =? 0x98 then -7
   else if reg =? 0x9A then 15500
   else if reg =? 0x9C then -14600
   else if reg =? 0x9E then 6000
   else 0) mod 65536.

(** A device that holds these words and never fails: the unsigned
    read gives the word, the signed read its two's complement
    value. *)
Definition datasheet_eeprom (_ : list setup_event) (op : setup_op) : option Z :=
  match op with
  | GetI2CDevice _ _ => Some 0
  | ReadU16LE reg => Some (datasheet_word reg)
  | ReadS16LE reg =>
      let w := datasheet_word reg in
      Some (if 32768 <=? w then w - 65536 else w)
  end.

(** The same device with a bus that fails from the fourth register
    read on. *)
Definition failing_eeprom (log : list setup_event) (op : setup_op) : option Z :=
  if (4 <=? Z.of_nat (length log)) then None else datasheet_eeprom log op.

Definition bmp280_at_0x76 : input_dev := InputDev "0a1b2c3d-0000" "0x76" 1.

(** The answers of the library are words: [readU16LE] in
    [0, 2^16), [readS16LE] in [-2^15, 2^15). *)
Definition word_device (dev : list setup_event -> setup_op -> option Z) : Prop :=
  forall log reg v,
    (dev log (ReadU16LE reg) = Some v -> 0 <= v < 2 ^ 16) /\
    (dev log (ReadS16LE reg) = Some v -> - 2 ^ 15 <= v < 2 ^ 15).

(** The calibration words of an instance have the widths of the
    datasheet. *)
Definition calibration_in_range (s : InputModule) : Prop :=
  0 <= cal_REGISTER_DIG_T1 s < 2 ^ 16 /\
  - 2 ^ 15 <= cal_REGISTER_DIG_T2 s < 2 ^ 15 /\
  - 2 ^ 15 <= cal_REGISTER_DIG_T3 s < 2 ^ 15 /\
  0 <= cal_REGISTER_DIG_P1 s < 2 ^ 16 /\
  Forall (λ v, - 2 ^ 15 <= v < 2 ^ 15)
    [ cal_REGISTER_DIG_P2 s; cal_REGISTER_DIG_P3 s; cal_REGISTER_DIG_P4 s;
      cal_REGISTER_DIG_P5 s; cal_REGISTER_DIG_P6 s; cal_REGISTER_DIG_P7 s;
      cal_REGISTER_DIG_P8 s; cal_REGISTER_DIG_P9 s ].

(** The twelve calibration words of an instance, in that order. *)
Definition calibration_words (s : InputModule) : list Z :=
  [ cal_REGISTER_DIG_T1 s; cal_REGISTER_DIG_T2 s; cal_REGISTER_DIG_T3 s;
    cal_REGISTER_DIG_P1 s; cal_REGISTER_DIG_P2 s; cal_REGISTER_DIG_P3 s;
    cal_REGISTER_DIG_P4 s; cal_REGISTER_DIG_P5 s; cal_REGISTER_DIG_P6 s;
    cal_REGISTER_DIG_P7 s; cal_REGISTER_DIG_P8 s; cal_REGISTER_DIG_P9 s ].

End BMP280Setup.

(** ** ds1822.py: [__init__] *)

Module DS1822Setup.

(** The attributes of [input_dev] that [__init__] reads. *)
Record input_dev : Type := InputDev {
  unique_id : string;
  location : string;
  resolution : pyval
}.

(** The attributes of an instance. *)
Record InputModule : Type := Build {
  self_location : string;
  self_resolution : pyval
}.

(** What construction asks of the 1-Wire library:
    [W1ThermSensor(W1ThermSensor.THERM_SENSOR_DS1822, location)] and
    [sensor.set_precision(resolution)]. *)
Inductive setup_op : Type :=
| W1ThermSensor_DS1822 (location : string)
| set_precision (resolution : pyval).

(** A call into the library and whether it returned ([true]) or
    raised. *)
Inductive setup_event : Type :=
| EvSetup (op : setup_op) (ok : bool).

(** The exception that the library raised in [op]. *)
Inductive setup_exn : Type :=
| LibraryError (op : setup_op).

Definition Setup (A : Type) : Type :=
  list setup_event -> (setup_exn + A) * list setup_event.

#[global] Instance Setup_ret : MRet Setup := λ A a log, (inr a, log).
#[global] Instance Setup_bind : MBind Setup := λ A B f c log,
  match c log with
  | (inr a, log') => f a log'
  | (inl e, log') => (inl e, log')
  end.

(** The truth value of an object under [if]. *)
Definition truthy (v : pyval) : bool :=
  match v with
  | PyNone => false
  | PyInt z => negb (z =? 0)
  | PyFloat q => negb (Qeq_bool q 0)
  | PyStr s => negb (bool_decide (s = ""))
  end.

Section Device.

(** The library during construction. *)
Variable lib : list setup_event -> setup_op -> bool.

Definition call (op : setup_op) : Setup unit := λ log,
  let ok := lib log op in
  let log' := log ++ [EvSetup op ok] in
  if ok then (inr tt, log') else (inl (LibraryError op), log').

(** [__init__(self, input_dev, testing)]; with [testing] the object
    has none of the attributes ([None] here). *)
Definition __init__ (input : input_dev) (testing : bool)
    : Setup (option InputModule) :=
  if testing then mret None
  else
    call (W1ThermSensor_DS1822 (location input)) ;;
    (if truthy (resolution input)
     then call (set_precision (resolution input))
     else mret tt) ;;
    mret (Some (Build (location input) (resolution input))).

End Device.

(** ** Fixtures *)

(** A library that finds every sensor and accepts 9 to 12 bits. *)
Definition strict_lib (_ : list setup_event) (op : setup_op) : bool :=
  match op with
  | W1ThermSensor_DS1822 _ => true
  | set_precision (PyInt r) => (9 <=? r) && (r <=? 12)
  | set_precision _ => false
  end.

End DS1822Setup.

(** * Invariants and counters used in the statements *)

Module BMP280Inv.
Import BMP280.

(** Two instances that differ in [_tfine] at most. *)
Definition same_config (s s' : InputModule) : Prop :=
  s' = set_tfine (_tfine s') s.

(** Two heaps with the same dict objects, whose entries other than
    ['value'] are the same. *)
Definition same_labels (h h' : gmap loc (gmap string pyval)) : Prop :=
  forall l : loc,
    match h !! l, h' !! l with
    | Some d, Some d' => forall f : string, f <> "value" -> d' !! f = d !! f
    | None, None => True
    | _, _ => False
    end.

(** What a method may do to the state: keep the configuration and the
    labels, and add events to the trace. *)
Definition step_ok (st st' : state) : Prop :=
  same_config (fst st) (fst st') /\
  same_labels (heap (snd st)) (heap (snd st')) /\
  exists evs, trace (snd st') = trace (snd st) ++ evs.

(** Every outcome of [c] is a permitted step. *)
Definition preserves {A} (c : M state A) : Prop :=
  forall st r st', c st = (r, st') -> step_ok st st'.

(** [c] raises nothing outside [E]. *)
Definition raises_only {S A} (E : exn -> Prop) (c : M S A) : Prop :=
  forall s e s', c s = (Raise e, s') -> E e.

Definition bus_or_overflow (e : exn) : Prop :=
  e = IOError \/ e = OverflowError.

(** The dict objects of the three channels exist. *)
Definition has_objects (h : gmap loc (gmap string pyval)) : Prop :=
  forall l : loc, (l < 3)%nat -> is_Some (h !! l).

(** A device that answers every byte read with a byte. *)
Definition byte_device (i2c : list event -> i2c_op -> option Z) : Prop :=
  forall tr reg v, i2c tr (ReadU8 reg) = Some v -> 0 <= v < 256.

(** The datasheet device with temperature registers that cannot be
    read. *)
Definition no_temperature_device (tr : list event) (op : i2c_op) : option Z :=
  match op with
  | ReadU8 reg =>
      if (BMP280_REGISTER_TEMPDATA_MSB <=? reg)
         && (reg <=? BMP280_REGISTER_TEMPDATA_XLSB)
      then None
      else datasheet_device tr op
  | _ => datasheet_device tr op
  end.

(** A device whose bus is dead. *)
Definition dead_bus (_ : list event) (_ : i2c_op) : option Z := None.

End BMP280Inv.

Module DS1822Inv.





End DS1822Inv.

(** * Facts about the binary64 model *)

Module FloatFacts.
Import Float.

Lemma round_half_even_unit (n : Z) : round_half_even n 1 = n.
Proof.
  unfold round_half_even. rewrite Z.mod_1_r, Z.div_1_r. reflexivity.
Qed.

Lemma ilog2_unit (n : Z) : 0 < n -> ilog2 n 1 = Z.log2 n.
Proof.
  intros Hn. unfold ilog2. change (Z.log2 1) with 0. rewrite Z.sub_0_r.
  pose proof (Z.log2_nonneg n) as Hk.
  destruct (Z.log2_spec n Hn) as [Hlo _].
  destruct (0 <=? Z.log2 n) eqn:E; [|lia].
  destruct (1 * 2 ^ Z.log2 n <=? n) eqn:E'; [reflexivity|lia].
Qed.

Lemma ilog2_le (n d : Z) : 0 < n -> 0 < d -> ilog2 n d <= Z.log2 n.
Proof.
  intros Hn Hd. unfold ilog2. pose proof (Z.log2_nonneg d).
  destruct (if 0 <=? _ then _ else _); lia.
Qed.

(** A quotient whose numerator is below [2^53] in magnitude never
    overflows. *)
Lemma b64_small (n : Z) (d : positive) :
  Z.abs n < 2 ^ 53 -> is_Some (b64 (n # d)).
Proof.
  intros Hn. unfold b64. cbn [Qnum Qden].
  destruct (n =? 0) eqn:E; [eauto|].
  assert (0 < Z.abs n) as Hpos by lia.
  unfold round_pos.
  pose proof (ilog2_le (Z.abs n) (Z.pos d) Hpos eq_refl) as Hl.
  assert (Z.log2 (Z.abs n) < 53) as Hlog by (apply Z.log2_lt_pow2; lia).
  set (u := Z.max _ _).
  assert (u <= 0) as Hu by (subst u; lia).
  destruct (971 <? u) eqn:E1; [lia|].
  destruct (u =? 971) eqn:E2; [lia|].
  cbn. eauto.
Qed.

(** [float(z)] is exact below [2^53]. *)
Lemma of_int_exact (z : Z) : Z.abs z < 2 ^ 53 -> of_int z = Some (inject_Z z).
Proof.
  intros Hz. unfold of_int, b64. cbn [Qnum Qden inject_Z].
  destruct (z =? 0) eqn:E; [apply Z.eqb_eq in E; subst; reflexivity|].
  apply Z.eqb_neq in E.
  assert (0 < Z.abs z) as Hpos by lia.
  unfold round_pos. rewrite (ilog2_unit _ Hpos).
  assert (Z.log2 (Z.abs z) < 53) as Hlog by (apply Z.log2_lt_pow2; lia).
  pose proof (Z.log2_nonneg (Z.abs z)) as Hnn.
  set (e := Z.log2 (Z.abs z)) in *.
  rewrite Z.max_l by lia.
  destruct (971 <? e - 52) eqn:E1; [lia|].
  destruct (e - 52 =? 971) eqn:E2; [lia|]. cbn [orb andb].
  f_equal.
  rewrite <- (Qred_identity (inject_Z z)) by (cbn; apply Z.gcd_1_r).
  apply Qred_complete.
  destruct (0 <=? e - 52) eqn:E3.
  - assert (e = 52) as -> by lia. change (52 - 52) with 0.
    rewrite Z.mul_1_r, round_half_even_unit.
    unfold Qeq. cbn. pose proof (Z.abs_sgn z). lia.
  - rewrite round_half_even_unit. unfold pow2. rewrite E3.
    unfold Qeq. cbn [Qnum Qden Qmult inject_Z].
    assert (0 < 2 ^ (- (e - 52))) as Hp by (apply Z.pow_pos_nonneg; lia).
    rewrite Pos.mul_1_l, Z2Pos.id by lia. nia.
Qed.

(** Two doubles that every Python session shows: [0.1] is
    [0x1.999999999999ap-4], and [float(2**53 + 1)] is [2**53], by the
    tie going to the even mantissa. *)
Example b64_one_tenth :
  b64 (1 # 10) = Some (3602879701896397 # 36028797018963968).
Proof. vm_compute. reflexivity. Qed.

Example of_int_tie_to_even : of_int (2 ^ 53 + 1) = Some (inject_Z (2 ^ 53)).
Proof. vm_compute. reflexivity. Qed.

(** The largest finite double is [(2^53 - 1) * 2^971]; half a unit in
    the last place above it rounds out of range. *)
Example of_int_overflow :
  is_Some (of_int ((2 ^ 53 - 1) * 2 ^ 971)) /\
  of_int ((2 ^ 53 - 1) * 2 ^ 971 + 2 ^ 970) = None.
Proof. split; [vm_compute; eauto|vm_compute; reflexivity]. Qed.

(** Python's shifts on bounded values. *)
Lemma shiftr_abs_le (x k : Z) : 0 <= k -> Z.abs (Z.shiftr x k) <= Z.abs x.
Proof.
  intros Hk. rewrite Z.shiftr_div_pow2 by lia.
  assert (0 < 2 ^ k) as Hp by (apply Z.pow_pos_nonneg; lia).
  destruct (Z_le_gt_dec 0 x) as [Hx|Hx].
  - pose proof (Z.div_pos x (2 ^ k) Hx Hp).
    pose proof (Z.div_le_upper_bound x (2 ^ k) x Hp). nia.
  - assert (x <= x / 2 ^ k) by (apply Z.div_le_lower_bound; nia).
    assert (x / 2 ^ k < 0) by (apply Z.div_lt_upper_bound; lia).
    lia.
Qed.

Lemma abs_mul_le (x y a b : Z) :
  Z.abs x <= a -> Z.abs y <= b -> Z.abs (x * y) <= a * b.
Proof.
  intros Hx Hy. rewrite Z.abs_mul.
  apply Z.mul_le_mono_nonneg; auto using Z.abs_nonneg.
Qed.

End FloatFacts.

(** * Facts about the BMP280 input *)

Module BMP280Facts.
Import BMP280.

(** Unfolds the plumbing of the monad, not the arithmetic. *)
Ltac msimpl :=
  cbv beta iota zeta delta
    [mbind M_bind mret M_ret get_self put_self do_emit time_sleep
     logger_debug lift_world when raise is_enabled write8 readU8 dict_copy
     fst snd].

Lemma emit_trace e w : trace (emit e w) = trace w ++ [e].
Proof. reflexivity. Qed.

Lemma emit_heap e w : heap (emit e w) = heap w.
Proof. reflexivity. Qed.

Section Device.
Variable i2c : list event -> i2c_op -> option Z.

(** The command byte of a raw read in mode [m]. *)
Local Abbreviation cmd m := (BMP280_READCMD + Z.shiftl m 6).

Lemma settle_run m st :
  settle m st = (Ret tt, (fst st, emit (EvSleep (settle_secs m)) (snd st))).
Proof.
  unfold settle, settle_secs.
  destruct (m =? BMP280_ULTRALOWPOWER); [reflexivity|].
  destruct (m =? BMP280_HIGHRES); [reflexivity|].
  destruct (m =? BMP280_ULTRAHIGHRES); reflexivity.
Qed.

(** A raw read is the control write, the delay and the data read. *)
Lemma raw_read_trigger (c : M state Z) msb_reg what st :
  c = (self ← get_self;
       write8 i2c BMP280_REGISTER_CONTROL (cmd (_mode self)) ;;
       settle (_mode self) ;;
       read_data i2c msb_reg what) ->
  let op := Write8 BMP280_REGISTER_CONTROL (cmd (_mode (fst st))) in
  c st =
  match i2c (trace (snd st)) op with
  | Some ack =>
      read_data i2c msb_reg what
        (fst st,
         emit (EvSleep (settle_secs (_mode (fst st))))
           (emit (EvI2C op (Some ack)) (snd st)))
  | None => (Raise IOError, (fst st, emit (EvI2C op None) (snd st)))
  end.
Proof.
  intros -> op. destruct st as [s w]. subst op. cbn [fst snd].
  msimpl. unfold bus at 1. msimpl.
  destruct (i2c (trace w) _) as [ack|]; [|reflexivity].
  rewrite settle_run. reflexivity.
Qed.

Lemma read_raw_temp_trigger st :
  let op := Write8 BMP280_REGISTER_CONTROL (cmd (_mode (fst st))) in
  read_raw_temp i2c st =
  match i2c (trace (snd st)) op with
  | Some ack =>
      read_data i2c BMP280_REGISTER_TEMPDATA_MSB "Raw temperature"
        (fst st,
         emit (EvSleep (settle_secs (_mode (fst st))))
           (emit (EvI2C op (Some ack)) (snd st)))
  | None => (Raise IOError, (fst st, emit (EvI2C op None) (snd st)))
  end.
Proof. apply raw_read_trigger. reflexivity. Qed.

Lemma read_raw_pressure_trigger st :
  let op := Write8 BMP280_REGISTER_CONTROL (cmd (_mode (fst st))) in
  read_raw_pressure i2c st =
  match i2c (trace (snd st)) op with
  | Some ack =>
      read_data i2c BMP280_REGISTER_PRESSUREDATA_MSB "Raw pressure"
        (fst st,
         emit (EvSleep (settle_secs (_mode (fst st))))
           (emit (EvI2C op (Some ack)) (snd st)))
  | None => (Raise IOError, (fst st, emit (EvI2C op None) (snd st)))
  end.
Proof. apply raw_read_trigger. reflexivity. Qed.

(** Whatever its outcome, the data read leaves the instance and the
    heap alone and only adds reads of its block and a log record. *)
Lemma read_data_frame msb_reg what st r st' :
  read_data i2c msb_reg what st = (r, st') ->
  fst st' = fst st /\ heap (snd st') = heap (snd st) /\
  exists evs, trace (snd st') = trace (snd st) ++ evs /\
              Forall (data_event msb_reg) evs.
Proof.
  destruct st as [s w]. unfold read_data. msimpl. unfold bus. msimpl.
  repeat match goal with
         | |- context [match i2c ?t ?o with _ => _ end] =>
             destruct (i2c t o) eqn:?
         end;
    intros [= <- <-]; cbn [fst snd]; (split; [reflexivity|]);
    (split; [reflexivity|]);
    rewrite ?emit_trace, <- ?app_assoc; eexists; (split; [reflexivity|]);
    repeat constructor; cbn; lia.
Qed.

(** A data read that returns has read three bytes and logged the
    combined value. *)
Lemma read_data_Ret msb_reg what st raw st' :
  read_data i2c msb_reg what st = (Ret raw, st') ->
  exists msb lsb xlsb,
    raw = combine msb lsb xlsb /\
    st' = (fst st,
           World (trace (snd st) ++
                    [ EvI2C (ReadU8 msb_reg) (Some msb);
                      EvI2C (ReadU8 (msb_reg + 1)) (Some lsb);
                      EvI2C (ReadU8 (msb_reg + 2)) (Some xlsb);
                      EvLog DEBUG what (PyInt (combine msb lsb xlsb)) ])
                 (heap (snd st))).
Proof.
  destruct st as [s w]. unfold read_data. msimpl. unfold bus. msimpl.
  repeat match goal with
         | |- context [match i2c ?t ?o with _ => _ end] =>
             destruct (i2c t o) eqn:?
         end;
    intros [= <- <-].
  do 3 eexists. split; [reflexivity|].
  unfold emit. cbn [trace heap]. rewrite <- !app_assoc. reflexivity.
Qed.


(** A raw read that returns has left exactly the events of
    [raw_read_events] behind. *)
Lemma raw_read_Ret (c : M state Z) msb_reg what st raw st' :
  c = (self ← get_self;
       write8 i2c BMP280_REGISTER_CONTROL (cmd (_mode self)) ;;
       settle (_mode self) ;;
       read_data i2c msb_reg what) ->
  c st = (Ret raw, st') ->
  exists ack msb lsb xlsb,
    raw = combine msb lsb xlsb /\
    fst st' = fst st /\ heap (snd st') = heap (snd st) /\
    trace (snd st') =
      trace (snd st) ++
      raw_read_events (cmd (_mode (fst st))) (settle_secs (_mode (fst st)))
        msb_reg ack msb lsb xlsb what.
Proof.
  intros Hc Hrun. rewrite (raw_read_trigger c msb_reg what st Hc) in Hrun.
  destruct (i2c _ _) as [ack|]; [|discriminate].
  apply read_data_Ret in Hrun as (msb & lsb & xlsb & -> & ->).
  exists ack, msb, lsb, xlsb. cbn [fst snd trace heap].
  repeat split. rewrite !emit_trace, <- !app_assoc. reflexivity.
Qed.

(** Whatever its outcome, a raw read leaves the instance and the heap
    alone; its events are the control write, then, if that was
    acknowledged, the delay and events of the data read. *)
Lemma raw_read_frame (c : M state Z) msb_reg what st r st' :
  c = (self ← get_self;
       write8 i2c BMP280_REGISTER_CONTROL (cmd (_mode self)) ;;
       settle (_mode self) ;;
       read_data i2c msb_reg what) ->
  c st = (r, st') ->
  fst st' = fst st /\ heap (snd st') = heap (snd st) /\
  exists res evs,
    trace (snd st') =
      trace (snd st) ++
      EvI2C (Write8 BMP280_REGISTER_CONTROL (cmd (_mode (fst st)))) res :: evs /\
    (res = None -> evs = []) /\
    (forall ack, res = Some ack ->
       exists evs', evs = EvSleep (settle_secs (_mode (fst st))) :: evs' /\
                    Forall (data_event msb_reg) evs').
Proof.
  intros Hc Hrun. rewrite (raw_read_trigger c msb_reg what st Hc) in Hrun.
  destruct (i2c _ _) as [ack|].
  - apply read_data_frame in Hrun as (Hs & Hh & evs & Ht & Hevs).
    cbn [fst snd] in *. rewrite emit_heap in Hh. rewrite emit_heap in Hh.
    repeat split; [assumption..|].
    exists (Some ack), (EvSleep (settle_secs (_mode (fst st))) :: evs).
    repeat split.
    + rewrite Ht, !emit_trace, <- !app_assoc. reflexivity.
    + discriminate.
    + intros ? _. eauto.
  - injection Hrun as <- <-. cbn [fst snd]. repeat split.
    exists None, []. repeat split. discriminate.
Qed.

Lemma read_raw_temp_Ret st raw st' :
  read_raw_temp i2c st = (Ret raw, st') ->
  exists ack msb lsb xlsb,
    raw = combine msb lsb xlsb /\
    fst st' = fst st /\ heap (snd st') = heap (snd st) /\
    trace (snd st') =
      trace (snd st) ++
      raw_read_events (cmd (_mode (fst st))) (settle_secs (_mode (fst st)))
        BMP280_REGISTER_TEMPDATA_MSB ack msb lsb xlsb "Raw temperature".
Proof. intros H. eapply raw_read_Ret; [|exact H]. reflexivity. Qed.

Lemma read_raw_pressure_Ret st raw st' :
  read_raw_pressure i2c st = (Ret raw, st') ->
  exists ack msb lsb xlsb,
    raw = combine msb lsb xlsb /\
    fst st' = fst st /\ heap (snd st') = heap (snd st) /\
    trace (snd st') =
      trace (snd st) ++
      raw_read_events (cmd (_mode (fst st))) (settle_secs (_mode (fst st)))
        BMP280_REGISTER_PRESSUREDATA_MSB ack msb lsb xlsb "Raw pressure".
Proof. intros H. eapply raw_read_Ret; [|exact H]. reflexivity. Qed.

Lemma read_raw_temp_frame st r st' :
  read_raw_temp i2c st = (r, st') ->
  fst st' = fst st /\ heap (snd st') = heap (snd st) /\
  exists res evs,
    trace (snd st') =
      trace (snd st) ++
      EvI2C (Write8 BMP280_REGISTER_CONTROL (cmd (_mode (fst st)))) res :: evs /\
    (res = None -> evs = []) /\
    (forall ack, res = Some ack ->
       exists evs', evs = EvSleep (settle_secs (_mode (fst st))) :: evs' /\
                    Forall (data_event BMP280_REGISTER_TEMPDATA_MSB) evs').
Proof. intros H. eapply raw_read_frame; [|exact H]. reflexivity. Qed.

Lemma read_raw_pressure_frame st r st' :
  read_raw_pressure i2c st = (r, st') ->
  fst st' = fst st /\ heap (snd st') = heap (snd st) /\
  exists res evs,
    trace (snd st') =
      trace (snd st) ++
      EvI2C (Write8 BMP280_REGISTER_CONTROL (cmd (_mode (fst st)))) res :: evs /\
    (res = None -> evs = []) /\
    (forall ack, res = Some ack ->
       exists evs', evs = EvSleep (settle_secs (_mode (fst st))) :: evs' /\
                    Forall (data_event BMP280_REGISTER_PRESSUREDATA_MSB) evs').
Proof. intros H. eapply raw_read_frame; [|exact H]. reflexivity. Qed.

Lemma cmd_or (m : Z) :
  0 <= m <= 3 -> cmd m = Z.lor 0x3F (Z.shiftl m 6).
Proof.
  intros Hm.
  assert (m = 0 \/ m = 1 \/ m = 2 \/ m = 3) as [->|[->|[->| ->]]] by lia;
    reflexivity.
Qed.

(** C5: in each of the four modes the byte that [read_raw_temp] and
    [read_raw_pressure] write to the control register, computed as
    [0x3F + (mode << 6)], is [0x3F | (mode << 6)]; the write is the
    first transaction of either read, whatever follows. *)
Theorem control_byte_is_read_command_or_mode (st : state) (m : Z) :
  _mode (fst st) = m -> 0 <= m <= 3 ->
  BMP280_READCMD + Z.shiftl m 6 = Z.lor 0x3F (Z.shiftl m 6) /\
  forall r st',
    read_raw_temp i2c st = (r, st') \/ read_raw_pressure i2c st = (r, st') ->
    exists res evs,
      trace (snd st') =
        trace (snd st) ++
        EvI2C (Write8 BMP280_REGISTER_CONTROL (Z.lor 0x3F (Z.shiftl m 6))) res
          :: evs.
Proof.
  intros Hmode Hm. split; [apply cmd_or, Hm|].
  intros r st' [Hrun|Hrun];
    [apply read_raw_temp_frame in Hrun as (_ & _ & res & evs & Ht & _)
    |apply read_raw_pressure_frame in Hrun as (_ & _ & res & evs & Ht & _)];
    rewrite Hmode, cmd_or in Ht by assumption; eauto.
Qed.

Lemma settle_table_secs (m ms : Z) :
  settle_table_ms m = Some ms ->
  0 <= m <= 3 /\ settle_secs m = ms # 1000.
Proof.
  unfold settle_table_ms.
  destruct (m =? 0) eqn:E0; [apply Z.eqb_eq in E0; subst; intros [= <-]; split; [lia|reflexivity]|].
  destruct (m =? 1) eqn:E1; [apply Z.eqb_eq in E1; subst; intros [= <-]; split; [lia|reflexivity]|].
  destruct (m =? 2) eqn:E2; [apply Z.eqb_eq in E2; subst; intros [= <-]; split; [lia|reflexivity]|].
  destruct (m =? 3) eqn:E3; [apply Z.eqb_eq in E3; subst; intros [= <-]; split; [lia|reflexivity]|].
  discriminate.
Qed.

(** C4: in each of the four modes, with [ms] the table value of the
    mode (5, 8, 14, 26), a raw temperature or pressure read that
    returns has done exactly: the control write, a sleep of [ms]
    milliseconds, the reads of the three data bytes, the log record.
    Whatever the outcome, a sleep happens only right after an
    acknowledged control write, lasts [ms] milliseconds, and only
    events of the data read follow it. *)
Theorem settle_delay_matches_table (st : state) (ms : Z) :
  settle_table_ms (_mode (fst st)) = Some ms ->
  let c := BMP280_READCMD + Z.shiftl (_mode (fst st)) 6 in
  (forall raw st',
     read_raw_temp i2c st = (Ret raw, st') ->
     exists ack msb lsb xlsb,
       trace (snd st') =
         trace (snd st) ++
         raw_read_events c (ms # 1000) BMP280_REGISTER_TEMPDATA_MSB
           ack msb lsb xlsb "Raw temperature") /\
  (forall raw st',
     read_raw_pressure i2c st = (Ret raw, st') ->
     exists ack msb lsb xlsb,
       trace (snd st') =
         trace (snd st) ++
         raw_read_events c (ms # 1000) BMP280_REGISTER_PRESSUREDATA_MSB
           ack msb lsb xlsb "Raw pressure") /\
  (forall r st',
     read_raw_temp i2c st = (r, st') \/ read_raw_pressure i2c st = (r, st') ->
     exists res evs,
       trace (snd st') =
         trace (snd st) ++ EvI2C (Write8 BMP280_REGISTER_CONTROL c) res :: evs /\
       (res = None -> evs = []) /\
       (forall ack, res = Some ack ->
          exists evs', evs = EvSleep (ms # 1000) :: evs' /\
                       forall d, ~ In (EvSleep d) evs')).
Proof.
  intros Htab c. apply settle_table_secs in Htab as [_ Hsecs].
  split; [|split].
  - intros raw st' Hrun.
    apply read_raw_temp_Ret in Hrun
      as (ack & msb & lsb & xlsb & _ & _ & _ & Ht).
    rewrite Hsecs in Ht. eauto 6.
  - intros raw st' Hrun.
    apply read_raw_pressure_Ret in Hrun
      as (ack & msb & lsb & xlsb & _ & _ & _ & Ht).
    rewrite Hsecs in Ht. eauto 6.
  - intros r st' [Hrun|Hrun];
      [apply read_raw_temp_frame in Hrun
         as (_ & _ & res & evs & Ht & Hnone & Hsome)
      |apply read_raw_pressure_frame in Hrun
         as (_ & _ & res & evs & Ht & Hnone & Hsome)];
      exists res, evs; (split; [exact Ht|]); (split; [exact Hnone|]);
      intros ack Hack; destruct (Hsome ack Hack) as (evs' & -> & Hdata);
      rewrite Hsecs; exists evs'; (split; [reflexivity|]);
      intros d Hin; rewrite List.Forall_forall in Hdata;
      apply (Hdata _ Hin).
Qed.


(** *** Temperature *)

Lemma int_div_float_run {S} (z : Z) (c x q : Q) (s : S) :
  Float.of_int z = Some x -> Float.b64 (x / c) = Some q ->
  int_div_float z c s = (Ret q, s).
Proof. intros Hx Hq. unfold int_div_float. rewrite Hx, Hq. reflexivity. Qed.

Lemma int_div_float_frame {S} (z : Z) (c : Q) (s s' : S) r :
  int_div_float z c s = (r, s') -> s' = s.
Proof.
  unfold int_div_float.
  destruct (Float.of_int z); [destruct (Float.b64 _)|]; intros [= _ <-];
    reflexivity.
Qed.

Lemma int_div_float_Ret {S} (z : Z) (c q : Q) (s s' : S) :
  int_div_float z c s = (Ret q, s') ->
  exists x, Float.of_int z = Some x /\ Float.b64 (x / c) = Some q.
Proof.
  unfold int_div_float.
  destruct (Float.of_int z) as [x|]; [|discriminate].
  destruct (Float.b64 _) as [y|] eqn:Hy; [|discriminate].
  intros [= <- <-]. exists x. split; [reflexivity|exact Hy].
Qed.

(** [read_temperature] after its raw read. *)
Lemma read_temperature_unfold st :
  read_temperature i2c st =
  match read_raw_temp i2c st with
  | (Ret adc_T, st1) =>
      let fine := TMP_FINE (fst st1) adc_T in
      let st2 := (set_tfine fine (fst st1), snd st1) in
      match int_div_float (Z.shiftr (fine * 5 + 128) 8) 100 st2 with
      | (Ret temp, st3) =>
          (Ret temp,
           (fst st3,
            emit (EvLog DEBUG "Calibrated temperature" (PyFloat temp))
              (snd st3)))
      | (Raise e, st3) => (Raise e, st3)
      end
  | (Raise e, st1) => (Raise e, st1)
  end.
Proof.
  unfold read_temperature. msimpl.
  destruct (read_raw_temp i2c st) as [[adc|e] [s1 w1]]; [|reflexivity].
  destruct (int_div_float _ _ _) as [[temp|e] st3]; reflexivity.
Qed.

Lemma read_temperature_Ret st t st' :
  read_temperature i2c st = (Ret t, st') ->
  exists adc_T st1 x,
    read_raw_temp i2c st = (Ret adc_T, st1) /\
    Float.of_int (Z.shiftr (TMP_FINE (fst st1) adc_T * 5 + 128) 8) = Some x /\
    Float.b64 (x / 100) = Some t /\
    st' = (set_tfine (TMP_FINE (fst st1) adc_T) (fst st1),
           emit (EvLog DEBUG "Calibrated temperature" (PyFloat t)) (snd st1)).
Proof.
  rewrite read_temperature_unfold.
  destruct (read_raw_temp i2c st) as [[adc|e] st1]; [|discriminate].
  cbv zeta.
  destruct (int_div_float _ _ _) as [[temp|e] st3] eqn:E; [|discriminate].
  intros [= <- <-].
  pose proof (int_div_float_frame _ _ _ _ _ E) as ->.
  apply int_div_float_Ret in E as (x & Hx & Hq). eauto 8.
Qed.

(** Whatever its outcome, a temperature read leaves the heap and the
    calibration alone. *)
Lemma read_temperature_frame st r st' :
  read_temperature i2c st = (r, st') ->
  heap (snd st') = heap (snd st) /\
  enabled_channels (fst st') = enabled_channels (fst st).
Proof.
  rewrite read_temperature_unfold.
  destruct (read_raw_temp i2c st) as [[adc|e] st1] eqn:E1;
    apply read_raw_temp_frame in E1 as (Hs & Hh & _).
  - cbv zeta.
    destruct (int_div_float _ _ _) as [[temp|e] st3] eqn:E;
      pose proof (int_div_float_frame _ _ _ _ _ E) as ->;
      intros [= <- <-]; cbn [fst snd]; rewrite ?emit_heap, Hh, <- Hs;
      split; reflexivity.
  - intros [= <- <-]. rewrite Hh, Hs. split; reflexivity.
Qed.

Lemma lor_below (a b n : Z) :
  0 <= n -> 0 <= a < 2 ^ n -> 0 <= b < 2 ^ n -> 0 <= Z.lor a b < 2 ^ n.
Proof.
  intros Hn Ha Hb.
  assert (0 <= Z.lor a b) as Hnn by (apply Z.lor_nonneg; lia).
  split; [exact Hnn|].
  destruct (Z.eq_dec (Z.lor a b) 0) as [->|Hne];
    [apply Z.pow_pos_nonneg; lia|].
  assert (0 < n) as Hpos.
  { destruct (Z.eq_dec n 0) as [->|]; [|lia].
    change (2 ^ 0) with 1 in *.
    assert (a = 0) as -> by lia. assert (b = 0) as -> by lia.
    contradiction. }
  apply Z.log2_lt_pow2; [lia|].
  rewrite Z.log2_lor by lia.
  destruct (Z.eq_dec a 0) as [->|Ha0], (Z.eq_dec b 0) as [->|Hb0];
    cbn [Z.log2]; try lia;
    repeat match goal with
           | H : 0 <= ?x < 2 ^ n, N : ?x <> 0 |- _ =>
               assert (Z.log2 x < n) by (apply Z.log2_lt_pow2; lia);
               clear N
           end; lia.
Qed.

(** Three bytes combine to a 20-bit raw code. *)
Lemma combine_20bit (msb lsb xlsb : Z) :
  0 <= msb < 256 -> 0 <= lsb < 256 -> 0 <= xlsb < 256 ->
  0 <= combine msb lsb xlsb < 2 ^ 20.
Proof.
  intros Hm Hl Hx. unfold combine.
  assert (0 <= Z.shiftl msb 8 < 2 ^ 16) as H1
    by (rewrite Z.shiftl_mul_pow2 by lia; lia).
  assert (0 <= Z.lor (Z.shiftl msb 8) lsb < 2 ^ 16) as H2
    by (apply lor_below; lia).
  assert (0 <= Z.shiftl (Z.lor (Z.shiftl msb 8) lsb) 8 < 2 ^ 24) as H3
    by (rewrite Z.shiftl_mul_pow2 by lia; lia).
  assert (0 <= Z.lor (Z.shiftl (Z.lor (Z.shiftl msb 8) lsb) 8) xlsb < 2 ^ 24)
    as H4 by (apply lor_below; lia).
  rewrite Z.shiftr_div_pow2 by lia.
  split; [apply Z.div_pos; lia|apply Z.div_lt_upper_bound; lia].
Qed.

(** The scaled temperature of bounded inputs fits a double exactly. *)
Lemma centidegrees_bounded (T1 T2 T3 adc_T : Z) :
  0 <= adc_T < 2 ^ 20 -> 0 <= T1 < 2 ^ 16 ->
  - 2 ^ 15 <= T2 < 2 ^ 15 -> - 2 ^ 15 <= T3 < 2 ^ 15 ->
  Z.abs (Z.shiftr ((TMP_PART1 T1 T2 adc_T + TMP_PART2 T1 T3 adc_T) * 5 + 128) 8)
    < 2 ^ 53.
Proof.
  intros Hadc HT1 HT2 HT3.
  assert (0 <= Z.shiftr adc_T 3 < 2 ^ 17) as H3.
  { rewrite Z.shiftr_div_pow2 by lia. split; [apply Z.div_pos; lia|].
    apply Z.div_lt_upper_bound; lia. }
  assert (0 <= Z.shiftr adc_T 4 < 2 ^ 16) as H4.
  { rewrite Z.shiftr_div_pow2 by lia. split; [apply Z.div_pos; lia|].
    apply Z.div_lt_upper_bound; lia. }
  assert (Z.shiftl T1 1 = 2 * T1) as HT1s
    by (rewrite Z.shiftl_mul_pow2 by lia; change (2 ^ 1) with 2; lia).
  assert (Z.abs (TMP_PART1 T1 T2 adc_T) <= 2 ^ 17 * 2 ^ 15) as Hp1.
  { unfold TMP_PART1.
    etransitivity; [apply FloatFacts.shiftr_abs_le; lia|].
    apply FloatFacts.abs_mul_le; lia. }
  assert (Z.abs (TMP_PART2 T1 T3 adc_T) <= 2 ^ 16 * 2 ^ 16 * 2 ^ 15) as Hp2.
  { unfold TMP_PART2.
    etransitivity; [apply FloatFacts.shiftr_abs_le; lia|].
    apply FloatFacts.abs_mul_le; [|lia].
    etransitivity; [apply FloatFacts.shiftr_abs_le; lia|].
    apply FloatFacts.abs_mul_le; lia. }
  eapply Z.le_lt_trans; [apply FloatFacts.shiftr_abs_le; lia|].
  change (2 ^ 53) with 9007199254740992.
  change (2 ^ 17 * 2 ^ 15) with 4294967296 in Hp1.
  change (2 ^ 16 * 2 ^ 16 * 2 ^ 15) with 140737488355328 in Hp2.
  lia.
Qed.

(** *** Pressure *)

Lemma compensate_pressure_frame adc_P st r st' :
  compensate_pressure adc_P st = (r, st') -> st' = st.
Proof.
  unfold compensate_pressure. msimpl. destruct st as [s w].
  destruct (pressure_var1 s =? 0); [intros [= _ <-]; reflexivity|].
  unfold int_of_truediv. destruct (pressure_var1 s =? 0).
  { intros [= _ <-]. reflexivity. }
  destruct (Float.b64 _); [|intros [= _ <-]; reflexivity].
  msimpl.
  destruct (int_div_float _ _ _) as [[q0|e] st3] eqn:E;
    pose proof (int_div_float_frame _ _ _ _ _ E) as ->;
    intros [= _ <-]; reflexivity.
Qed.

Lemma compensate_pressure_zero adc_P st :
  pressure_var1 (fst st) = 0 ->
  compensate_pressure adc_P st = (Ret (PyInt 0), st).
Proof.
  intros H0. unfold compensate_pressure. msimpl. destruct st as [s w].
  cbn [fst] in H0. rewrite H0. reflexivity.
Qed.

(** [read_pressure] reads the temperature first exactly when
    [_tfine] is 0. *)
Lemma read_pressure_unfold st :
  read_pressure i2c st =
  if _tfine (fst st) =? 0 then
    (read_temperature i2c ≫= λ _, read_raw_pressure i2c ≫= compensate_pressure) st
  else (read_raw_pressure i2c ≫= compensate_pressure) st.
Proof.
  unfold read_pressure. msimpl. destruct st as [s w].
  destruct (_tfine s =? 0); [|reflexivity].
  destruct (read_temperature i2c (s, w)) as [[t|e] st1]; reflexivity.
Qed.

Lemma bind_Ret {S A B} (c : M S A) (f : A -> M S B) s a s' :
  c s = (Ret a, s') -> (c ≫= f) s = f a s'.
Proof. intros H. unfold mbind, M_bind. rewrite H. reflexivity. Qed.

Lemma bind_Raise {S A B} (c : M S A) (f : A -> M S B) s e s' :
  c s = (Raise e, s') -> (c ≫= f) s = (Raise e, s').
Proof. intros H. unfold mbind, M_bind. rewrite H. reflexivity. Qed.

(** Whatever its outcome, the pressure read proper (without the
    temperature read) leaves the instance and the heap alone and
    touches no temperature register. *)
Lemma pressure_body_frame st r st' :
  (read_raw_pressure i2c ≫= compensate_pressure) st = (r, st') ->
  fst st' = fst st /\ heap (snd st') = heap (snd st) /\
  exists evs, trace (snd st') = trace (snd st) ++ evs /\
              Forall (λ e, ~ reads_temperature e) evs.
Proof.
  destruct (read_raw_pressure i2c st) as [[adc|e] st1] eqn:E1;
    [rewrite (bind_Ret _ _ _ _ _ E1)|rewrite (bind_Raise _ _ _ _ _ E1)];
    intros Hrun;
    [apply compensate_pressure_frame in Hrun as ->|injection Hrun as <- <-];
    apply read_raw_pressure_frame in E1
      as (Hs & Hh & res & evs & Ht & Hnone & Hsome);
    (split; [exact Hs|]); (split; [exact Hh|]);
    eexists; (split; [exact Ht|]);
    (constructor; [cbn; tauto|]);
    (destruct res as [ack|];
     [destruct (Hsome ack eq_refl) as (evs' & -> & Hdata);
      constructor; [cbn; tauto|];
      eapply Forall_impl; [exact Hdata|];
      intros [[]| | |]; cbn; unfold BMP280_REGISTER_PRESSUREDATA_MSB,
        BMP280_REGISTER_TEMPDATA_MSB, BMP280_REGISTER_TEMPDATA_XLSB; lia
     |rewrite (Hnone eq_refl); constructor]).
Qed.


(** C2: when the factor [var1] of the pressure formula is exactly
    zero for the fine temperature in effect (the cached one, or the
    one that the triggered temperature read has just stored), and the
    bus transactions of the call succeed, [read_pressure] returns the
    number 0, which equals [0.0], and raises nothing. *)
Theorem read_pressure_zero_var1 (st st1 st2 : state) (adc_P : Z) :
  (if _tfine (fst st) =? 0
   then exists t, read_temperature i2c st = (Ret t, st1)
   else st1 = st) ->
  read_raw_pressure i2c st1 = (Ret adc_P, st2) ->
  let tfine := _tfine (fst st1) in
  let P1 := cal_REGISTER_DIG_P1 (fst st1) in
  let P2 := cal_REGISTER_DIG_P2 (fst st1) in
  let P3 := cal_REGISTER_DIG_P3 (fst st1) in
  Z.shiftr
    ((Z.shiftl 1 47
      + (Z.shiftr ((tfine - 128000) * (tfine - 128000) * P3) 8
         + Z.shiftl ((tfine - 128000) * P2) 12)) * P1) 33 = 0 ->
  read_pressure i2c st = (Ret (PyInt 0), st2) /\
  py_eq (PyInt 0) (PyFloat 0) = true.
Proof.
  intros Htemp Hraw tfine P1 P2 P3 Hzero. split; [|reflexivity].
  assert (pressure_var1 (fst st2) = 0) as Hvar1.
  { apply read_raw_pressure_frame in Hraw as (-> & _). exact Hzero. }
  rewrite read_pressure_unfold.
  destruct (_tfine (fst st) =? 0).
  - destruct Htemp as [t Htemp].
    rewrite (bind_Ret _ _ _ _ _ Htemp), (bind_Ret _ _ _ _ _ Hraw).
    apply compensate_pressure_zero, Hvar1.
  - subst st1. rewrite (bind_Ret _ _ _ _ _ Hraw).
    apply compensate_pressure_zero, Hvar1.
Qed.

(** C3: when the cached [_tfine] is 0, [read_pressure] starts with a
    full temperature read: control write, settle delay, the three
    temperature bytes, compensation; the fine temperature of that
    reading is stored in [_tfine], and the pressure read proper runs
    from the state so obtained.  When [_tfine] is not 0, the call is
    the pressure read proper: whatever its outcome it reads no
    temperature register and leaves [_tfine] as it was. *)
Theorem read_pressure_lazy_temperature (st : state) :
  (_tfine (fst st) = 0 ->
   read_pressure i2c st =
     (read_temperature i2c ≫= λ _,
        read_raw_pressure i2c ≫= compensate_pressure) st /\
   forall t st1,
     read_temperature i2c st = (Ret t, st1) ->
     exists ack msb lsb xlsb,
       trace (snd st1) =
         trace (snd st) ++
         raw_read_events (BMP280_READCMD + Z.shiftl (_mode (fst st)) 6)
           (settle_secs (_mode (fst st))) BMP280_REGISTER_TEMPDATA_MSB
           ack msb lsb xlsb "Raw temperature"
         ++ [EvLog DEBUG "Calibrated temperature" (PyFloat t)] /\
       _tfine (fst st1) = TMP_FINE (fst st) (combine msb lsb xlsb) /\
       read_pressure i2c st =
         (read_raw_pressure i2c ≫= compensate_pressure) st1) /\
  (_tfine (fst st) <> 0 ->
   read_pressure i2c st = (read_raw_pressure i2c ≫= compensate_pressure) st /\
   forall r st',
     read_pressure i2c st = (r, st') ->
     _tfine (fst st') = _tfine (fst st) /\
     exists evs, trace (snd st') = trace (snd st) ++ evs /\
                 Forall (λ e, ~ reads_temperature e) evs).
Proof.
  split; intros Htf.
  - assert (read_pressure i2c st =
            (read_temperature i2c ≫= λ _,
               read_raw_pressure i2c ≫= compensate_pressure) st) as Hrp.
    { rewrite read_pressure_unfold, Htf. reflexivity. }
    split; [exact Hrp|].
    intros t st1 Htemp.
    rewrite Hrp, (bind_Ret _ _ _ _ _ Htemp).
    apply read_temperature_Ret in Htemp
      as (adc & st0 & x & Hraw & _ & _ & ->).
    apply read_raw_temp_Ret in Hraw
      as (ack & msb & lsb & xlsb & -> & Hs & _ & Ht).
    exists ack, msb, lsb, xlsb. cbn [fst snd].
    rewrite emit_trace, Ht, Hs, <- app_assoc.
    repeat split.
  - apply Z.eqb_neq in Htf.
    assert (read_pressure i2c st =
            (read_raw_pressure i2c ≫= compensate_pressure) st) as Hrp.
    { rewrite read_pressure_unfold, Htf. reflexivity. }
    split; [exact Hrp|].
    intros r st' Hrun. rewrite Hrp in Hrun.
    apply pressure_body_frame in Hrun as (Hs & _ & evs & Ht & Hevs).
    rewrite Hs. eauto.
Qed.

(** C1, general part: for a 20-bit raw code and 16-bit calibration
    words, [read_temperature] stores [part1 + part2] in [_tfine],
    raises nothing, and returns the double nearest to
    [((fine*5 + 128) >> 8) / 100]. *)
Lemma read_temperature_formula (st st1 : state) (raw : Z) :
  read_raw_temp i2c st = (Ret raw, st1) ->
  0 <= raw < 2 ^ 20 ->
  let T1 := cal_REGISTER_DIG_T1 (fst st) in
  let T2 := cal_REGISTER_DIG_T2 (fst st) in
  let T3 := cal_REGISTER_DIG_T3 (fst st) in
  0 <= T1 < 2 ^ 16 -> - 2 ^ 15 <= T2 < 2 ^ 15 -> - 2 ^ 15 <= T3 < 2 ^ 15 ->
  let part1 := Z.shiftr ((Z.shiftr raw 3 - Z.shiftl T1 1) * T2) 11 in
  let part2 :=
    Z.shiftr (Z.shiftr ((Z.shiftr raw 4 - T1) * (Z.shiftr raw 4 - T1)) 12 * T3) 14 in
  let fine := part1 + part2 in
  exists celsius,
    Float.b64 (inject_Z (Z.shiftr (fine * 5 + 128) 8) / 100) = Some celsius /\
    read_temperature i2c st =
      (Ret celsius,
       (set_tfine fine (fst st1),
        emit (EvLog DEBUG "Calibrated temperature" (PyFloat celsius))
          (snd st1))).
Proof.
  intros Hraw Hr T1 T2 T3 HT1 HT2 HT3 part1 part2 fine.
  pose proof (centidegrees_bounded T1 T2 T3 raw Hr HT1 HT2 HT3) as Hb.
  fold part1 part2 fine in Hb. unfold TMP_PART1, TMP_PART2 in Hb.
  fold part1 part2 fine in Hb.
  set (t := Z.shiftr (fine * 5 + 128) 8) in *.
  destruct (FloatFacts.b64_small (t * 1) 100) as [q Hq]; [lia|].
  exists q. split; [exact Hq|].
  rewrite read_temperature_unfold, Hraw. cbv zeta.
  apply read_raw_temp_frame in Hraw as (Hs & _).
  assert (TMP_FINE (fst st1) raw = fine) as -> by (rewrite Hs; reflexivity).
  fold t.
  rewrite (int_div_float_run t 100 (inject_Z t) q);
    [reflexivity|apply FloatFacts.of_int_exact, Hb|exact Hq].
Qed.


(** *** Acquisition *)

Variable calculate_altitude : pyval -> pyval.

Lemma read_pressure_frame st r st' :
  read_pressure i2c st = (r, st') ->
  heap (snd st') = heap (snd st) /\
  enabled_channels (fst st') = enabled_channels (fst st).
Proof.
  rewrite read_pressure_unfold.
  assert (forall st0 r0 st0',
            (read_raw_pressure i2c ≫= compensate_pressure) st0 = (r0, st0') ->
            heap (snd st0') = heap (snd st0) /\
            enabled_channels (fst st0') = enabled_channels (fst st0)) as Hbody.
  { intros st0 r0 st0' H. apply pressure_body_frame in H as (-> & -> & _).
    split; reflexivity. }
  destruct (_tfine (fst st) =? 0); [|apply Hbody].
  destruct (read_temperature i2c st) as [[t|e] st1] eqn:Ht.
  - rewrite (bind_Ret _ _ _ _ _ Ht). intros H.
    apply Hbody in H as [-> ->]. eapply read_temperature_frame, Ht.
  - rewrite (bind_Raise _ _ _ _ _ Ht). intros [= <- <-].
    eapply read_temperature_frame, Ht.
Qed.

Lemma setitem2_Ret d k field v w w' :
  setitem2 d k field v w = (Ret tt, w') ->
  exists l inner,
    d !! k = Some l /\ heap w !! l = Some inner /\
    trace w' = trace w /\
    heap w' = <[l := <[field := v]> inner]> (heap w).
Proof.
  unfold setitem2. destruct (d !! k) as [l|] eqn:Hl; [|discriminate].
  destruct (heap w !! l) as [inner|] eqn:Hin; [|discriminate].
  intros [= <-]. exists l, inner. repeat split; assumption.
Qed.

(** The three conditional statements of [get_measurement]. *)
Local Abbreviation pressure_channel d :=
  (en0 ← is_enabled 0;
   when en0 (v ← read_pressure i2c;
             lift_world (setitem2 d 0 "value" v))).

Local Abbreviation temperature_channel d :=
  (en1 ← is_enabled 1;
   when en1 (v ← read_temperature i2c;
             lift_world (setitem2 d 1 "value" (PyFloat v)))).

Local Abbreviation altitude_channel d :=
  (en2 ← is_enabled 2;
   when en2 (en0' ← is_enabled 0;
             when en0' (p ← lift_world (getitem2 d 0 "value");
                        lift_world (setitem2 d 2 "value" (calculate_altitude p))))).

Lemma get_measurement_unfold st :
  get_measurement i2c calculate_altitude st =
  (pressure_channel measurements_dict ;;
   temperature_channel measurements_dict ;;
   altitude_channel measurements_dict ;;
   mret measurements_dict) st.
Proof. reflexivity. Qed.

Lemma md0 : measurements_dict !! 0 = Some 0%nat.
Proof. reflexivity. Qed.
Lemma md1 : measurements_dict !! 1 = Some 1%nat.
Proof. reflexivity. Qed.
Lemma md2 : measurements_dict !! 2 = Some 2%nat.
Proof. reflexivity. Qed.

(** The first statement: when channel 0 is enabled, the pressure of
    this call is stored in the dict object of channel 0; otherwise
    nothing happens. *)
Lemma pressure_channel_Ret st st' :
  pressure_channel measurements_dict st = (Ret tt, st') ->
  enabled_channels (fst st') = enabled_channels (fst st) /\
  if enabled_channels (fst st) 0 then
    exists p st1 inner,
      read_pressure i2c st = (Ret p, st1) /\
      heap (snd st) !! 0%nat = Some inner /\
      heap (snd st') = <[0%nat := <["value" := p]> inner]> (heap (snd st))
  else st' = st.
Proof.
  destruct st as [s w]. msimpl.
  destruct (enabled_channels s 0); [|intros [= <-]; split; reflexivity].
  destruct (read_pressure i2c (s, w)) as [[p|e] [s1 w1]] eqn:Hp;
    [|discriminate].
  apply read_pressure_frame in Hp as Hfr. cbn [fst snd] in Hfr.
  destruct Hfr as [Hh Hen].
  destruct (setitem2 _ _ _ _ w1) as [[[]|e] w2] eqn:Hset; [|discriminate].
  intros [= <-]. cbn [fst snd].
  apply setitem2_Ret in Hset as (l & inner & Hl & Hin & _ & Hw2).
  rewrite md0 in Hl. injection Hl as <-.
  split; [exact Hen|]. exists p, (s1, w1), inner.
  rewrite <- Hh. repeat split; assumption.
Qed.

(** The second statement touches the dict object of channel 1 only. *)
Lemma temperature_channel_Ret st st' :
  temperature_channel measurements_dict st = (Ret tt, st') ->
  enabled_channels (fst st') = enabled_channels (fst st) /\
  forall l : nat, l <> 1%nat -> heap (snd st') !! l = heap (snd st) !! l.
Proof.
  destruct st as [s w]. msimpl.
  destruct (enabled_channels s 1); [|intros [= <-]; split; reflexivity].
  destruct (read_temperature i2c (s, w)) as [[t|e] [s1 w1]] eqn:Ht;
    [|discriminate].
  apply read_temperature_frame in Ht as Hfr. cbn [fst snd] in Hfr.
  destruct Hfr as [Hh Hen].
  destruct (setitem2 _ _ _ _ w1) as [[[]|e] w2] eqn:Hset; [|discriminate].
  intros [= <-]. cbn [fst snd].
  apply setitem2_Ret in Hset as (l & inner & Hl & Hin & _ & Hw2).
  rewrite md1 in Hl. injection Hl as <-.
  split; [exact Hen|]. intros l Hne.
  rewrite Hw2, lookup_insert_ne, Hh by congruence. reflexivity.
Qed.

(** The third statement: the altitude is stored exactly when
    channels 2 and 0 are both enabled, and it is computed from what
    the dict object of channel 0 holds under ['value']. *)
Lemma altitude_channel_Ret st st' :
  altitude_channel measurements_dict st = (Ret tt, st') ->
  if enabled_channels (fst st) 2 && enabled_channels (fst st) 0 then
    exists p inner,
      lookup2 (snd st) measurements_dict 0 "value" = Some p /\
      heap (snd st) !! 2%nat = Some inner /\
      heap (snd st') =
        <[2%nat := <["value" := calculate_altitude p]> inner]> (heap (snd st))
  else st' = st.
Proof.
  destruct st as [s w]. msimpl.
  destruct (enabled_channels s 2); [|intros [= <-]; reflexivity].
  destruct (enabled_channels s 0); [|intros [= <-]; reflexivity].
  cbn [andb]. unfold getitem2.
  destruct (lookup2 w measurements_dict 0 "value") as [p|]; [|discriminate].
  destruct (setitem2 _ _ _ _ w) as [[[]|e] w2] eqn:Hset; [|discriminate].
  intros [= <-]. cbn [fst snd].
  apply setitem2_Ret in Hset as (l & inner & Hl & Hin & _ & Hw2).
  rewrite md2 in Hl. injection Hl as <-. eauto.
Qed.


Lemma bind_Ret_inv {S A B} (c : M S A) (f : A -> M S B) s b s' :
  (c ≫= f) s = (Ret b, s') ->
  exists a s1, c s = (Ret a, s1) /\ f a s1 = (Ret b, s').
Proof.
  unfold mbind, M_bind. destruct (c s) as [[a|e] s1]; [eauto|discriminate].
Qed.

(** C6: a [get_measurement] that returns has stored an altitude in
    the dict object of channel 2 if and only if channels 2 and 0 are
    both enabled: when they are, the stored value is
    [calculate_altitude] of the pressure that [read_pressure]
    returned at the start of this very call, which is also what
    channel 0 holds; when one of them is not, the dict object of
    channel 2 is exactly what it was before the call. *)
Theorem altitude_iff_altitude_and_pressure_enabled
    (st st' : state) (d : gmap Z loc) :
  get_measurement i2c calculate_altitude st = (Ret d, st') ->
  d !! 2 = Some 2%nat /\
  (enabled_channels (fst st) 2 = true /\ enabled_channels (fst st) 0 = true ->
   exists p st1,
     read_pressure i2c st = (Ret p, st1) /\
     record_value (snd st') d 0 = Some p /\
     record_value (snd st') d 2 = Some (calculate_altitude p)) /\
  (enabled_channels (fst st) 2 = false \/ enabled_channels (fst st) 0 = false ->
   heap (snd st') !! 2%nat = heap (snd st) !! 2%nat).
Proof.
  rewrite get_measurement_unfold. intros Hrun.
  apply bind_Ret_inv in Hrun as ([] & st1 & Hp & Hrun).
  apply bind_Ret_inv in Hrun as ([] & st2 & Ht & Hrun).
  apply bind_Ret_inv in Hrun as ([] & st3 & Ha & Hrun).
  injection Hrun as <- <-.
  apply pressure_channel_Ret in Hp as [Hen1 Hp].
  apply temperature_channel_Ret in Ht as [Hen2 Ht].
  apply altitude_channel_Ret in Ha.
  rewrite Hen2, Hen1 in Ha.
  split; [reflexivity|]. split.
  - intros [E2 E0]. rewrite E2, E0 in Ha. rewrite E0 in Hp. cbn [andb] in Ha.
    destruct Hp as (p & stp & inner & Hrp & Hin & Hh1).
    destruct Ha as (p' & inner2 & Hlook & Hin2 & Hh3).
    assert (heap (snd st2) !! 0%nat = Some (<["value" := p]> inner)) as H0.
    { rewrite Ht, Hh1 by congruence. apply lookup_insert_eq. }
    assert (p' = p) as ->.
    { unfold lookup2 in Hlook. rewrite md0, H0, lookup_insert_eq in Hlook.
      congruence. }
    exists p, stp. split; [exact Hrp|]. unfold record_value, lookup2.
    rewrite md0, md2, Hh3, lookup_insert_eq, lookup_insert_ne, H0 by congruence.
    rewrite !lookup_insert_eq. split; reflexivity.
  - intros Hoff.
    assert (enabled_channels (fst st) 2 && enabled_channels (fst st) 0 = false)
      as Hb by (destruct Hoff as [-> | ->]; [reflexivity|apply andb_false_r]).
    rewrite Hb in Ha. subst st3. rewrite Ht by congruence.
    destruct (enabled_channels (fst st) 0).
    + destruct Hp as (p & stp & inner & _ & _ & ->).
      apply lookup_insert_ne. congruence.
    + subst st1. reflexivity.
Qed.

(** With no channel enabled, [get_measurement] does nothing at all
    and hands out the shared dict objects as they are. *)
Lemma get_measurement_nothing_enabled (st : state) :
  (forall k, enabled_channels (fst st) k = false) ->
  get_measurement i2c calculate_altitude st = (Ret measurements_dict, st).
Proof.
  intros Hoff. destruct st as [s w]. cbn [fst] in Hoff.
  unfold get_measurement. msimpl. rewrite !Hoff. reflexivity.
Qed.

End Device.

(** *** The datasheet example and other closed evaluations *)

Lemma within_decide (eps a b : Q) :
  Qle_bool (Qabs (a - b)) eps = true -> within eps a b.
Proof. apply Qle_bool_imp_le. Qed.

Lemma not_within_decide (eps a b : Q) :
  Qle_bool (Qabs (a - b)) eps = false -> ~ within eps a b.
Proof.
  intros Hf Hw. apply Qle_bool_iff in Hw. congruence.
Qed.

(** The state after [_load_datasheet_calibration], before any read. *)
Local Abbreviation st0 := (datasheet_sensor (λ _, true), import_world).

(** With the calibration and the raw values of the datasheet example,
    the temperature read gives the double nearest to 25.08, and the
    pressure read that follows, on the cached [_tfine] = 128422 and
    without reading the temperature again, gives
    25767233 / 256 = 100653.25390625. *)
Lemma datasheet_example :
  let r1 := read_temperature datasheet_device st0 in
  let r2 := read_pressure datasheet_device (snd r1) in
  fst r1 = Ret (1764848103975813 # 70368744177664) /\
  _tfine (fst (snd r1)) = 128422 /\
  fst r2 = Ret (PyFloat (25767233 # 256)) /\
  trace (snd (snd r2)) =
    trace (snd (snd r1)) ++
    raw_read_events 0x7F (8 # 1000) BMP280_REGISTER_PRESSUREDATA_MSB
      0 0x65 0x5A 0xC0 "Raw pressure".
Proof. vm_compute. repeat split. Qed.

(** C1, as stated, fails on the pressure: on the datasheet example the
    code returns 100653.25390625 Pa, which is 0.016 away from the
    100653.27 Pa of the datasheet, more than the tolerance 1e-2. *)
Lemma datasheet_pressure_misses_tolerance :
  let r1 := read_temperature datasheet_device st0 in
  let r2 := read_pressure datasheet_device (snd r1) in
  exists t p,
    fst r1 = Ret t /\ fst r2 = Ret (PyFloat p) /\
    within (1 # 100) t datasheet_temperature /\
    ~ within (1 # 100) p datasheet_pressure.
Proof.
  destruct datasheet_example as (H1 & _ & H2 & _).
  eexists _, _. split; [exact H1|]. split; [exact H2|]. split.
  - apply within_decide. vm_compute. reflexivity.
  - apply not_within_decide. vm_compute. reflexivity.
Qed.

(** C1, amended: for a 20-bit raw code and 16-bit calibration words,
    [read_temperature] computes [part1] and [part2] as stated, stores
    [fine = part1 + part2] in [_tfine] and returns the double nearest
    to [((fine*5 + 128) >> 8) / 100]; on the datasheet example
    (T1=27504, T2=26435, T3=-1000, raw temperature 519888, raw pressure
    415148) it returns 25.08 within 1e-2, and the following
    [read_pressure], on the cached [_tfine] = 128422, returns
    100653.25390625, which is within 2e-2 of the datasheet's
    100653.27. *)
Theorem read_temperature_formula_and_datasheet_example
    (i2c : list event -> i2c_op -> option Z) (st st1 : state) (raw : Z) :
  read_raw_temp i2c st = (Ret raw, st1) ->
  0 <= raw < 2 ^ 20 ->
  let T1 := cal_REGISTER_DIG_T1 (fst st) in
  let T2 := cal_REGISTER_DIG_T2 (fst st) in
  let T3 := cal_REGISTER_DIG_T3 (fst st) in
  0 <= T1 < 2 ^ 16 -> - 2 ^ 15 <= T2 < 2 ^ 15 -> - 2 ^ 15 <= T3 < 2 ^ 15 ->
  let part1 := Z.shiftr ((Z.shiftr raw 3 - Z.shiftl T1 1) * T2) 11 in
  let part2 :=
    Z.shiftr (Z.shiftr ((Z.shiftr raw 4 - T1) * (Z.shiftr raw 4 - T1)) 12 * T3) 14 in
  let fine := part1 + part2 in
  (exists celsius,
     Float.b64 (inject_Z (Z.shiftr (fine * 5 + 128) 8) / 100) = Some celsius /\
     read_temperature i2c st =
       (Ret celsius,
        (set_tfine fine (fst st1),
         emit (EvLog DEBUG "Calibrated temperature" (PyFloat celsius))
           (snd st1)))) /\
  (let r1 := read_temperature datasheet_device st0 in
   let r2 := read_pressure datasheet_device (snd r1) in
   exists t p,
     fst r1 = Ret t /\ within (1 # 100) t datasheet_temperature /\
     _tfine (fst (snd r1)) = 128422 /\
     fst r2 = Ret (PyFloat p) /\ p = 25767233 # 256 /\
     within (2 # 100) p datasheet_pressure).
Proof.
  intros Hraw Hr T1 T2 T3 HT1 HT2 HT3 part1 part2 fine. split.
  - apply read_temperature_formula; assumption.
  - destruct datasheet_example as (H1 & Hf & H2 & _).
    eexists _, _. split; [exact H1|].
    split; [apply within_decide; vm_compute; reflexivity|].
    split; [exact Hf|]. split; [exact H2|]. split; [reflexivity|].
    apply within_decide. vm_compute. reflexivity.
Qed.

Lemma read_temperature_formula_and_datasheet_example_witness :
  let st1 := snd (read_raw_temp datasheet_device st0) in
  (read_raw_temp datasheet_device st0 = (Ret datasheet_adc_T, st1) /\
   0 <= datasheet_adc_T < 2 ^ 20 /\
   0 <= 27504 < 2 ^ 16 /\ - 2 ^ 15 <= 26435 < 2 ^ 15 /\
   - 2 ^ 15 <= -1000 < 2 ^ 15) /\
  exists celsius,
    Float.b64 (inject_Z 2508 / 100) = Some celsius /\
    read_temperature datasheet_device st0 =
      (Ret celsius,
       (set_tfine 128422 (fst st1),
        emit (EvLog DEBUG "Calibrated temperature" (PyFloat celsius))
          (snd st1))).
Proof.
  intros st1.
  assert (read_raw_temp datasheet_device st0 = (Ret datasheet_adc_T, st1))
    as Hraw by (vm_compute; reflexivity).
  assert (0 <= datasheet_adc_T < 2 ^ 20) as Hr by (unfold datasheet_adc_T; lia).
  assert (0 <= 27504 < 2 ^ 16) as HT1 by (unfold datasheet_adc_T; lia).
  assert (- 2 ^ 15 <= 26435 < 2 ^ 15) as HT2 by (unfold datasheet_adc_T; lia).
  assert (- 2 ^ 15 <= -1000 < 2 ^ 15) as HT3 by (unfold datasheet_adc_T; lia).
  split; [repeat split; first [exact Hraw | apply Hr | apply HT1 | apply HT2 | apply HT3]|].
  exact (proj1 (read_temperature_formula_and_datasheet_example
                  datasheet_device st0 st1 datasheet_adc_T
                  Hraw Hr HT1 HT2 HT3)).
Defined.

Lemma control_byte_is_read_command_or_mode_witness :
  (_mode (fst st0) = 1 /\ 0 <= 1 <= 3) /\
  BMP280_READCMD + Z.shiftl 1 6 = Z.lor 0x3F (Z.shiftl 1 6) /\
  forall r st',
    read_raw_temp datasheet_device st0 = (r, st') \/
    read_raw_pressure datasheet_device st0 = (r, st') ->
    exists res evs,
      trace (snd st') =
        trace (snd st0) ++
        EvI2C (Write8 BMP280_REGISTER_CONTROL (Z.lor 0x3F (Z.shiftl 1 6))) res
          :: evs.
Proof.
  assert (0 <= 1 <= 3) as Hm by lia.
  split; [split; [reflexivity|exact Hm]|].
  exact (control_byte_is_read_command_or_mode datasheet_device st0 1 eq_refl Hm).
Defined.

Lemma settle_delay_matches_table_witness :
  settle_table_ms (_mode (fst st0)) = Some 8 /\
  forall raw st',
    read_raw_pressure datasheet_device st0 = (Ret raw, st') ->
    exists ack msb lsb xlsb,
      trace (snd st') =
        trace (snd st0) ++
        raw_read_events (BMP280_READCMD + Z.shiftl (_mode (fst st0)) 6)
          (8 # 1000) BMP280_REGISTER_PRESSUREDATA_MSB
          ack msb lsb xlsb "Raw pressure".
Proof.
  split; [reflexivity|].
  exact (proj1 (proj2 (settle_delay_matches_table datasheet_device st0 8 eq_refl))).
Defined.

(** A sensor whose calibration words are all zero, as a test double
    gives them, before any read; then [var1] is zero. *)
Local Abbreviation zero_st := (blank BMP280_STANDARD (λ _, true), import_world).

Lemma read_pressure_zero_var1_witness :
  let st1 := snd (read_temperature datasheet_device zero_st) in
  let st2 := snd (read_raw_pressure datasheet_device st1) in
  ((exists t, read_temperature datasheet_device zero_st = (Ret t, st1)) /\
   read_raw_pressure datasheet_device st1 = (Ret datasheet_adc_P, st2) /\
   pressure_var1 (fst st1) = 0) /\
  read_pressure datasheet_device zero_st = (Ret (PyInt 0), st2) /\
  py_eq (PyInt 0) (PyFloat 0) = true.
Proof.
  intros st1 st2.
  assert (exists t, read_temperature datasheet_device zero_st = (Ret t, st1))
    as Htemp by (exists 0%Q; vm_compute; reflexivity).
  assert (read_raw_pressure datasheet_device st1 = (Ret datasheet_adc_P, st2))
    as Hraw by (vm_compute; reflexivity).
  assert (pressure_var1 (fst st1) = 0) as Hzero by (vm_compute; reflexivity).
  split; [repeat split; assumption|].
  exact (read_pressure_zero_var1 datasheet_device zero_st st1 st2
           datasheet_adc_P Htemp Hraw Hzero).
Defined.

Lemma read_pressure_lazy_temperature_witness :
  let warm := snd (read_temperature datasheet_device st0) in
  (_tfine (fst st0) = 0 /\
   read_pressure datasheet_device st0 =
     (read_temperature datasheet_device ≫= λ _,
        read_raw_pressure datasheet_device ≫= compensate_pressure) st0) /\
  (_tfine (fst warm) <> 0 /\
   read_pressure datasheet_device warm =
     (read_raw_pressure datasheet_device ≫= compensate_pressure) warm).
Proof.
  intros warm.
  assert (_tfine (fst warm) <> 0) as Hwarm by (vm_compute; discriminate).
  split; split.
  - reflexivity.
  - exact (proj1 (proj1 (read_pressure_lazy_temperature datasheet_device st0)
                    eq_refl)).
  - exact Hwarm.
  - exact (proj1 (proj2 (read_pressure_lazy_temperature datasheet_device warm)
                    Hwarm)).
Defined.

Lemma altitude_iff_altitude_and_pressure_enabled_witness :
  let st' := snd (get_measurement datasheet_device altitude_stub st0) in
  get_measurement datasheet_device altitude_stub st0 = (Ret measurements_dict, st') /\
  exists p st1,
    read_pressure datasheet_device st0 = (Ret p, st1) /\
    record_value (snd st') measurements_dict 0 = Some p /\
    record_value (snd st') measurements_dict 2 = Some (altitude_stub p).
Proof.
  intros st'.
  assert (get_measurement datasheet_device altitude_stub st0
          = (Ret measurements_dict, st')) as Hrun by (vm_compute; reflexivity).
  split; [exact Hrun|].
  exact (proj1 (proj2 (altitude_iff_altitude_and_pressure_enabled
                         datasheet_device altitude_stub st0 st' measurements_dict
                         Hrun))
           (conj eq_refl eq_refl)).
Defined.

(** C7 fails on the code: [measurements_dict.copy()] is shallow, so the
    record of every call refers to the same three inner dict objects.
    After a call with every channel enabled, a call on another
    instance with no channel enabled returns a record whose channels
    0, 1 and 2 still carry the values of the first call. *)
Theorem disabled_channel_carries_stale_value :
  let A := datasheet_sensor (λ _, true) in
  let B := datasheet_sensor (λ _, false) in
  let first := get_measurement datasheet_device altitude_stub (A, import_world) in
  let second := get_measurement datasheet_device altitude_stub (B, snd (snd first)) in
  record_value import_world measurements_dict 0 = None /\
  enabled_channels B 0 = false /\
  fst second = Ret measurements_dict /\
  trace (snd (snd second)) = trace (snd (snd first)) /\
  record_value (snd (snd second)) measurements_dict 0
    = Some (PyFloat (25767233 # 256)) /\
  record_value (snd (snd second)) measurements_dict 1
    = Some (PyFloat (1764848103975813 # 70368744177664)) /\
  record_value (snd (snd second)) measurements_dict 2 = Some (PyFloat 0).
Proof. vm_compute. repeat split. Qed.

End BMP280Facts.

(** * Facts about the DS1822 input *)

Module DS1822Facts.
Import DS1822.

Ltac wsimpl :=
  cbv beta iota zeta delta
    [mbind M_bind mret M_ret try_except when raise dict_copy time_sleep
     logger_error logger_exception get_temperature gt fst snd].

Section Device.
Variable w1 : list event -> string + Q.

(** The index of the loop never equals [n]: the branch that logs the
    exception is dead. *)
Lemma range_below (n i : Z) : In i (range n) -> 0 <= i < n.
Proof.
  unfold range. rewrite in_map_iff. intros (k & <- & Hk).
  apply in_seq in Hk. lia.
Qed.

(** One pass of the loop. *)
Lemma attempt_ok (n i : Z) (t : Q) (w : world) :
  w1 (trace w) = inr t ->
  attempt w1 n i w = (Ret (Some (PyFloat t)), emit (EvW1 (inr t)) w).
Proof. intros H. unfold attempt. wsimpl. rewrite H. reflexivity. Qed.

Lemma attempt_fail (n i : Z) (msg : string) (w : world) :
  w1 (trace w) = inl msg -> (i =? n) = false ->
  attempt w1 n i w = (Ret None, emit (EvSleep 1) (emit (EvW1 (inl msg)) w)).
Proof.
  intros H Hi. unfold attempt. wsimpl. rewrite H, Hi. reflexivity.
Qed.

Lemma attempts_cons (n i : Z) (idx : list Z) (temperature : pyval) (w : world) :
  attempts w1 n (i :: idx) temperature w =
  match attempt w1 n i w with
  | (Ret (Some t), w') => (Ret t, w')
  | (Ret None, w') => attempts w1 n idx temperature w'
  | (Raise e, w') => (Raise e, w')
  end.
Proof.
  cbn [attempts]. unfold mbind, M_bind.
  destruct (attempt w1 n i w) as [[[t|]|e] w']; reflexivity.
Qed.

Lemma emit2_trace (a b : event) (w : world) :
  trace (emit b (emit a w)) = trace w ++ [a; b].
Proof. unfold emit. cbn [trace]. rewrite <- app_assoc. reflexivity. Qed.

(** The loop when the first read succeeds. *)
Lemma attempts_first (t : Q) (w : world) :
  w1 (trace w) = inr t ->
  attempts w1 2 (range 2) PyNone w = (Ret (PyFloat t), emit (EvW1 (inr t)) w).
Proof.
  intros H. change (range 2) with [0; 1].
  rewrite attempts_cons, (attempt_ok _ _ t w H). reflexivity.
Qed.

(** The loop when the first read raises and the second succeeds. *)
Lemma attempts_second (msg : string) (t : Q) (w : world) :
  w1 (trace w) = inl msg ->
  w1 (trace w ++ [EvW1 (inl msg); EvSleep 1]) = inr t ->
  attempts w1 2 (range 2) PyNone w =
    (Ret (PyFloat t),
     World (trace w ++ [EvW1 (inl msg); EvSleep 1; EvW1 (inr t)]) (heap w)).
Proof.
  intros H1 H2. change (range 2) with [0; 1].
  rewrite attempts_cons, (attempt_fail 2 0 msg w H1 eq_refl).
  rewrite <- emit2_trace in H2.
  rewrite attempts_cons, (attempt_ok _ _ t _ H2).
  unfold emit. cbn [trace heap]. rewrite <- !app_assoc. reflexivity.
Qed.

(** The loop when both reads raise: two reads, two sleeps, no log
    record, and [temperature] still [None]. *)
Lemma attempts_none (m1 m2 : string) (w : world) :
  w1 (trace w) = inl m1 ->
  w1 (trace w ++ [EvW1 (inl m1); EvSleep 1]) = inl m2 ->
  attempts w1 2 (range 2) PyNone w =
    (Ret PyNone,
     World (trace w ++ [EvW1 (inl m1); EvSleep 1; EvW1 (inl m2); EvSleep 1])
       (heap w)).
Proof.
  intros H1 H2. change (range 2) with [0; 1].
  rewrite attempts_cons, (attempt_fail 2 0 m1 w H1 eq_refl).
  rewrite <- emit2_trace in H2.
  rewrite attempts_cons, (attempt_fail 2 1 m2 _ H2 eq_refl).
  unfold emit. cbn [attempts trace heap]. rewrite <- !app_assoc. reflexivity.
Qed.

(** [-55 > t > 125] holds for no number. *)
Lemma out_of_range_never (t : Q) (w : world) :
  out_of_range (PyFloat t) w = (Ret false, w).
Proof.
  unfold out_of_range. wsimpl. unfold py_gt. cbn [py_num].
  destruct (Qle_bool (inject_Z (-55)) t) eqn:E1; [reflexivity|].
  cbn [negb]. cbv iota.
  destruct (Qle_bool t (inject_Z 125)) eqn:E2; [reflexivity|].
  exfalso.
  assert (~ (inject_Z (-55) <= t)%Q) as N1
    by (rewrite <- Qle_bool_iff; congruence).
  assert (~ (t <= inject_Z 125)%Q) as N2
    by (rewrite <- Qle_bool_iff; congruence).
  apply Qnot_le_lt in N1, N2.
  assert (inject_Z 125 < inject_Z (-55))%Q as Habs
    by (eapply Qlt_trans; eassumption).
  revert Habs. unfold Qlt. cbn. lia.
Qed.

(** What follows the loop when the reading is the fault signature. *)
Lemma get_measurement_after_85 (t : Q) (w w' : world) :
  attempts w1 2 (range 2) PyNone w = (Ret (PyFloat t), w') ->
  (t == 85)%Q ->
  get_measurement w1 w =
    (Ret None,
     emit (EvLog ERROR
             "Measurement returned 85 C, indicating an issue communicating with the sensor."
             PyNone) w').
Proof.
  intros Hloop H85. unfold get_measurement.
  cbv beta iota zeta delta [mbind M_bind mret M_ret dict_copy].
  rewrite Hloop.
  assert (py_eq (PyFloat t) (PyInt 85) = true) as ->
    by (unfold py_eq; cbn [py_num]; apply Qeq_bool_iff, H85).
  reflexivity.
Qed.

(** What follows the loop otherwise: the range test never fires, and
    [temperature], a reading or [None], is stored in the dict object
    of channel 0. *)
Lemma get_measurement_after_other (v : pyval) (w w' : world)
    (inner : gmap string pyval) :
  attempts w1 2 (range 2) PyNone w = (Ret v, w') ->
  v = PyNone \/ (exists t, v = PyFloat t /\ ~ (t == 85)%Q) ->
  heap w' !! 0%nat = Some inner ->
  get_measurement w1 w =
    (Ret (Some measurements_dict),
     set_heap (<[0%nat := <["value" := v]> inner]> (heap w')) w').
Proof.
  intros Hloop Hv Hin. unfold get_measurement.
  cbv beta iota zeta delta [mbind M_bind mret M_ret dict_copy].
  rewrite Hloop.
  assert (py_eq v (PyInt 85) = false) as ->.
  { destruct Hv as [-> | (t & -> & Hne)]; [reflexivity|].
    unfold py_eq. cbn [py_num]. destruct (Qeq_bool t (inject_Z 85)) eqn:E;
      [apply Qeq_bool_iff in E; contradiction|reflexivity]. }
  assert (out_of_range v w' = (Ret false, w')) as ->
    by (destruct Hv as [-> | (t & -> & _)];
        [reflexivity|apply out_of_range_never]).
  unfold setitem2.
  change (measurements_dict !! 0) with (Some 0%nat). cbv beta iota.
  rewrite Hin. reflexivity.
Qed.

(** C8, amended: when the read that succeeds (the first, or the
    second after the first has raised) returns exactly 85, then
    [get_measurement] raises nothing, logs the fault, leaves the dict
    objects alone, and returns [None]: no record at all. *)
Theorem fault_signature_returns_None (t : Q) (w : world) :
  (t == 85)%Q ->
  (w1 (trace w) = inr t ->
   get_measurement w1 w =
     (Ret None,
      World (trace w ++
               [ EvW1 (inr t);
                 EvLog ERROR
                   "Measurement returned 85 C, indicating an issue communicating with the sensor."
                   PyNone ])
            (heap w))) /\
  (forall msg,
     w1 (trace w) = inl msg ->
     w1 (trace w ++ [EvW1 (inl msg); EvSleep 1]) = inr t ->
     get_measurement w1 w =
       (Ret None,
        World (trace w ++
                 [ EvW1 (inl msg); EvSleep 1; EvW1 (inr t);
                   EvLog ERROR
                     "Measurement returned 85 C, indicating an issue communicating with the sensor."
                     PyNone ])
              (heap w))).
Proof.
  intros H85. split.
  - intros H. rewrite (get_measurement_after_85 t w _ (attempts_first t w H) H85).
    unfold emit. cbn [trace heap]. rewrite <- app_assoc. reflexivity.
  - intros msg H1 H2.
    rewrite (get_measurement_after_85 t w _ (attempts_second msg t w H1 H2) H85).
    unfold emit. cbn [trace heap]. rewrite <- app_assoc. reflexivity.
Qed.

End Device.

Lemma fault_signature_returns_None_witness :
  ((85 # 1) == 85)%Q /\
  (flaky (85 # 1) (trace import_world) = inl "SensorNotReadyError" /\
   flaky (85 # 1)
     (trace import_world ++ [EvW1 (inl "SensorNotReadyError"); EvSleep 1])
   = inr (85 # 1)) /\
  get_measurement (flaky (85 # 1)) import_world =
    (Ret None,
     World (trace import_world ++
              [ EvW1 (inl "SensorNotReadyError"); EvSleep 1; EvW1 (inr (85 # 1));
                EvLog ERROR
                  "Measurement returned 85 C, indicating an issue communicating with the sensor."
                  PyNone ])
           (heap import_world)).
Proof.
  assert ((85 # 1) == 85)%Q as H85 by reflexivity.
  split; [exact H85|]. split; [split; reflexivity|].
  exact (proj2 (fault_signature_returns_None (flaky (85 # 1)) (85 # 1)
                  import_world H85)
           "SensorNotReadyError" eq_refl eq_refl).
Defined.

(** C8, as stated, fails: on a reading of 85.0 the result is [None],
    not a record whose temperature channel holds the absent marker. *)
Lemma fault_signature_gives_no_record :
  ~ exists d,
      fst (get_measurement (steady (85 # 1)) import_world) = Ret (Some d).
Proof. intros [d H]. vm_compute in H. discriminate H. Qed.

(** C9 fails on the code: when both reads raise, the call returns the
    record with an absent temperature and has slept one second after
    each failure, but it has logged nothing: the handler logs when
    [i == n], and no index of [range(n)] equals [n]. *)
Theorem both_attempts_fail_nothing_logged
    (w1 : list event -> string + Q) (w : world) (m1 m2 : string)
    (inner : gmap string pyval) :
  w1 (trace w) = inl m1 ->
  w1 (trace w ++ [EvW1 (inl m1); EvSleep 1]) = inl m2 ->
  heap w !! 0%nat = Some inner ->
  Forall (λ i, (i =? 2) = false) (range 2) /\
  get_measurement w1 w =
    (Ret (Some measurements_dict),
     World (trace w ++ [EvW1 (inl m1); EvSleep 1; EvW1 (inl m2); EvSleep 1])
       (<[0%nat := <["value" := PyNone]> inner]> (heap w))).
Proof.
  intros H1 H2 Hin. split; [repeat constructor|].
  rewrite (get_measurement_after_other w1 PyNone w _ inner
             (attempts_none w1 m1 m2 w H1 H2) (or_introl eq_refl) Hin).
  reflexivity.
Qed.

Lemma both_attempts_fail_nothing_logged_witness :
  let inner : gmap string pyval :=
    <["measurement" := PyStr "temperature"]> (<["unit" := PyStr "C"]> ∅) in
  (dead (trace import_world) = inl "SensorNotReadyError" /\
   dead (trace import_world ++ [EvW1 (inl "SensorNotReadyError"); EvSleep 1])
   = inl "SensorNotReadyError" /\
   heap import_world !! 0%nat = Some inner) /\
  get_measurement dead import_world =
    (Ret (Some measurements_dict),
     World (trace import_world ++
              [ EvW1 (inl "SensorNotReadyError"); EvSleep 1;
                EvW1 (inl "SensorNotReadyError"); EvSleep 1 ])
       (<[0%nat := <["value" := PyNone]> inner]> (heap import_world))).
Proof.
  intros inner. split; [repeat split|].
  exact (proj2 (both_attempts_fail_nothing_logged dead import_world
                  "SensorNotReadyError" "SensorNotReadyError" inner
                  eq_refl eq_refl eq_refl)).
Defined.

(** The retry itself works: when the first read raises and the second
    returns a reading other than 85, that reading is the value of the
    temperature channel. *)
Lemma second_attempt_value_is_taken
    (w1 : list event -> string + Q) (w : world) (msg : string) (t : Q)
    (inner : gmap string pyval) :
  w1 (trace w) = inl msg ->
  w1 (trace w ++ [EvW1 (inl msg); EvSleep 1]) = inr t ->
  ~ (t == 85)%Q ->
  heap w !! 0%nat = Some inner ->
  get_measurement w1 w =
    (Ret (Some measurements_dict),
     World (trace w ++ [EvW1 (inl msg); EvSleep 1; EvW1 (inr t)])
       (<[0%nat := <["value" := PyFloat t]> inner]> (heap w))).
Proof.
  intros H1 H2 Hne Hin.
  rewrite (get_measurement_after_other w1 (PyFloat t) w _ inner
             (attempts_second w1 msg t w H1 H2)
             (or_intror (ex_intro _ t (conj eq_refl Hne))) Hin).
  reflexivity.
Qed.

(** C10 fails on the code: the range test [-55 > temperature > 125] is
    false for every number, so every reading other than 85, inside
    (-55, 125) or not, becomes the value of the temperature channel and
    nothing is logged; so does a reading of 200.0. *)
Theorem out_of_range_reading_is_kept
    (w1 : list event -> string + Q) (w : world) (t : Q)
    (inner : gmap string pyval) :
  w1 (trace w) = inr t ->
  ~ (t == 85)%Q ->
  heap w !! 0%nat = Some inner ->
  out_of_range (PyFloat t) w = (Ret false, w) /\
  get_measurement w1 w =
    (Ret (Some measurements_dict),
     World (trace w ++ [EvW1 (inr t)])
       (<[0%nat := <["value" := PyFloat t]> inner]> (heap w))).
Proof.
  intros H Hne Hin. split; [apply out_of_range_never|].
  rewrite (get_measurement_after_other w1 (PyFloat t) w _ inner
             (attempts_first w1 t w H)
             (or_intror (ex_intro _ t (conj eq_refl Hne))) Hin).
  reflexivity.
Qed.

Lemma out_of_range_reading_is_kept_witness :
  let inner : gmap string pyval :=
    <["measurement" := PyStr "temperature"]> (<["unit" := PyStr "C"]> ∅) in
  (steady (200 # 1) (trace import_world) = inr (200 # 1) /\
   ~ ((200 # 1) == 85)%Q /\
   heap import_world !! 0%nat = Some inner) /\
  get_measurement (steady (200 # 1)) import_world =
    (Ret (Some measurements_dict),
     World (trace import_world ++ [EvW1 (inr (200 # 1))])
       (<[0%nat := <["value" := PyFloat (200 # 1)]> inner]> (heap import_world))).
Proof.
  intros inner.
  assert (~ ((200 # 1) == 85)%Q) as Hne by (intros H; discriminate H).
  split; [repeat split; exact Hne|].
  exact (proj2 (out_of_range_reading_is_kept (steady (200 # 1)) import_world
                  (200 # 1) inner eq_refl Hne eq_refl)).
Defined.

End DS1822Facts.

(** * Further facts about the BMP280 input *)

Module BMP280Extra.
Import BMP280 BMP280Inv BMP280Facts.

Create HintDb frame.

(** ** Permitted steps *)

Lemma same_config_refl s : same_config s s.
Proof. destruct s. reflexivity. Qed.

Lemma same_config_trans s1 s2 s3 :
  same_config s1 s2 -> same_config s2 s3 -> same_config s1 s3.
Proof.
  unfold same_config. intros H12 H23. rewrite H23 at 1. rewrite H12.
  reflexivity.
Qed.

Lemma same_config_set_tfine v s : same_config s (set_tfine v s).
Proof. reflexivity. Qed.

Lemma same_labels_refl h : same_labels h h.
Proof. intros l. destruct (h !! l); auto. Qed.

Lemma same_labels_trans h1 h2 h3 :
  same_labels h1 h2 -> same_labels h2 h3 -> same_labels h1 h3.
Proof.
  intros H12 H23 l. specialize (H12 l). specialize (H23 l).
  destruct (h1 !! l), (h2 !! l), (h3 !! l); try tauto.
  intros f Hf. rewrite H23, H12 by assumption. reflexivity.
Qed.

(** Storing a value keeps the labels. *)
Lemma same_labels_store h (l : loc) inner v :
  h !! l = Some inner ->
  same_labels h (<[l := <["value" := v]> inner]> h).
Proof.
  intros Hin l'. destruct (decide (l = l')) as [<-|Hne].
  - rewrite Hin, lookup_insert_eq. intros f Hf.
    apply lookup_insert_ne. congruence.
  - rewrite lookup_insert_ne by assumption. destruct (h !! l'); auto.
Qed.

Lemma step_ok_refl st : step_ok st st.
Proof.
  split; [apply same_config_refl|]. split; [apply same_labels_refl|].
  exists []. symmetry. apply app_nil_r.
Qed.

Lemma step_ok_trans st1 st2 st3 :
  step_ok st1 st2 -> step_ok st2 st3 -> step_ok st1 st3.
Proof.
  intros (Hc1 & Hl1 & evs1 & Ht1) (Hc2 & Hl2 & evs2 & Ht2).
  split; [eapply same_config_trans; eassumption|].
  split; [eapply same_labels_trans; eassumption|].
  exists (evs1 ++ evs2). rewrite Ht2, Ht1, app_assoc. reflexivity.
Qed.

Lemma step_ok_emit e st : step_ok st (fst st, emit e (snd st)).
Proof.
  split; [apply same_config_refl|]. split; [apply same_labels_refl|].
  exists [e]. reflexivity.
Qed.

(** ** Rules for [preserves] *)

Lemma preserves_ret {A} (a : A) : preserves (mret a).
Proof. intros st r st' [= <- <-]. apply step_ok_refl. Qed.

Lemma preserves_raise {A} (e : exn) : preserves (@raise state A e).
Proof. intros st r st' [= <- <-]. apply step_ok_refl. Qed.

Lemma preserves_bind {A B} (c : M state A) (f : A -> M state B) :
  preserves c -> (forall a, preserves (f a)) -> preserves (c ≫= f).
Proof.
  intros Hc Hf st r st'. unfold mbind, M_bind.
  destruct (c st) as [[a|e] st1] eqn:E.
  - intros Hrun. eapply step_ok_trans; [eapply Hc, E|eapply Hf, Hrun].
  - intros [= <- <-]. eapply Hc, E.
Qed.

Lemma preserves_when (b : bool) (c : M state unit) :
  preserves c -> preserves (when b c).
Proof. destruct b; [auto|intros _; apply preserves_ret]. Qed.

Lemma preserves_get_self : preserves get_self.
Proof. intros st r st' [= <- <-]. apply step_ok_refl. Qed.

Lemma preserves_is_enabled k : preserves (is_enabled k).
Proof. intros st r st' [= <- <-]. apply step_ok_refl. Qed.

Lemma preserves_put_tfine v : preserves (put_self (set_tfine v)).
Proof.
  intros st r st' [= <- <-]. split; [apply same_config_set_tfine|].
  split; [apply same_labels_refl|]. exists []. symmetry. apply app_nil_r.
Qed.

Lemma preserves_emit e : preserves (do_emit e).
Proof. intros st r st' [= <- <-]. apply step_ok_emit. Qed.

Lemma preserves_int_div_float z c : preserves (int_div_float z c).
Proof.
  intros st r st' H. apply int_div_float_frame in H as ->. apply step_ok_refl.
Qed.

Lemma preserves_int_of_truediv a b : preserves (int_of_truediv a b).
Proof.
  intros st r st'. unfold int_of_truediv.
  destruct (b =? 0); [intros [= <- <-]; apply step_ok_refl|].
  destruct (Float.b64 _); intros [= <- <-]; apply step_ok_refl.
Qed.

Lemma preserves_store d k v :
  preserves (lift_world (setitem2 d k "value" v)).
Proof.
  intros [s w] r st'. unfold lift_world, setitem2. cbn [fst snd].
  destruct (d !! k) as [l|]; [|intros [= <- <-]; apply step_ok_refl].
  destruct (heap w !! l) as [inner|] eqn:Hin;
    [|intros [= <- <-]; apply step_ok_refl].
  intros [= <- <-]. split; [apply same_config_refl|].
  split; [apply same_labels_store, Hin|].
  exists []. symmetry. apply app_nil_r.
Qed.

Lemma preserves_load d k f : preserves (lift_world (getitem2 d k f)).
Proof.
  intros [s w] r st'. unfold lift_world, getitem2. cbn [fst snd].
  destruct (lookup2 w d k f); intros [= <- <-]; apply step_ok_refl.
Qed.

#[local] Hint Resolve preserves_ret preserves_raise preserves_when
  preserves_get_self preserves_is_enabled preserves_put_tfine
  preserves_emit preserves_int_div_float preserves_int_of_truediv
  preserves_store preserves_load : frame.

(** Applies the rule for [bind] as far as the program text goes. *)
Ltac frame :=
  repeat first
    [ solve [eauto with frame]
    | apply preserves_when
    | apply preserves_bind; [|intros ?] ].

(** ** Rules for [raises_only] *)

Lemma raises_only_ret {S A} E (a : A) : raises_only E (mret a : M S A).
Proof. intros s e s' [=]. Qed.

Lemma raises_only_bind {S A B} E (c : M S A) (f : A -> M S B) :
  raises_only E c -> (forall a, raises_only E (f a)) ->
  raises_only E (c ≫= f).
Proof.
  intros Hc Hf s e s'. unfold mbind, M_bind.
  destruct (c s) as [[a|e0] s1] eqn:E0.
  - apply Hf.
  - intros [= <- <-]. eapply Hc, E0.
Qed.

Lemma raises_only_when {S} E (b : bool) (c : M S unit) :
  raises_only E c -> raises_only E (when b c).
Proof. destruct b; [auto|intros _; apply raises_only_ret]. Qed.

Lemma raises_only_int_div_float {S} z c :
  raises_only bus_or_overflow (int_div_float z c : M S Q).
Proof.
  intros s e s'. unfold int_div_float.
  destruct (Float.of_int z); [destruct (Float.b64 _)|];
    intros [= <- <-]; right; reflexivity.
Qed.

Section Device.
Variable i2c : list event -> i2c_op -> option Z.
Variable calculate_altitude : pyval -> pyval.

Lemma preserves_bus op : preserves (bus i2c op).
Proof.
  intros st r st'. unfold bus.
  destruct (i2c _ _); intros [= <- <-]; apply step_ok_emit.
Qed.

Lemma raises_only_bus op : raises_only bus_or_overflow (bus i2c op).
Proof.
  intros st e st'. unfold bus.
  destruct (i2c _ _); intros [= <- <-]. left. reflexivity.
Qed.

Lemma preserves_settle m : preserves (settle m).
Proof.
  intros st r st'. rewrite settle_run. intros [= <- <-]. apply step_ok_emit.
Qed.

#[local] Hint Resolve preserves_bus preserves_settle : frame.

Lemma preserves_read_raw_temp : preserves (read_raw_temp i2c).
Proof. unfold read_raw_temp, write8, readU8, logger_debug. frame. Qed.

Lemma preserves_read_raw_pressure : preserves (read_raw_pressure i2c).
Proof. unfold read_raw_pressure, write8, readU8, logger_debug. frame. Qed.

#[local] Hint Resolve preserves_read_raw_temp preserves_read_raw_pressure
  : frame.

Lemma preserves_read_temperature : preserves (read_temperature i2c).
Proof. unfold read_temperature, logger_debug. frame. Qed.

Lemma preserves_compensate_pressure adc_P :
  preserves (compensate_pressure adc_P).
Proof.
  intros st r st' H. apply compensate_pressure_frame in H as ->.
  apply step_ok_refl.
Qed.

#[local] Hint Resolve preserves_read_temperature
  preserves_compensate_pressure : frame.

Lemma preserves_read_pressure : preserves (read_pressure i2c).
Proof. unfold read_pressure. frame. Qed.

#[local] Hint Resolve preserves_read_pressure : frame.

Lemma preserves_get_measurement :
  preserves (get_measurement i2c calculate_altitude).
Proof. unfold get_measurement, dict_copy. frame. Qed.


(** *** Raw reads *)




(** The bytes of a data read that returns are answers of the
    device. *)
Lemma read_data_answers msb_reg what st raw st' :
  read_data i2c msb_reg what st = (Ret raw, st') ->
  exists msb lsb xlsb t1 t2 t3,
    i2c t1 (ReadU8 msb_reg) = Some msb /\
    i2c t2 (ReadU8 (msb_reg + 1)) = Some lsb /\
    i2c t3 (ReadU8 (msb_reg + 2)) = Some xlsb /\
    raw = combine msb lsb xlsb.
Proof.
  destruct st as [s w]. unfold read_data. msimpl. unfold bus. msimpl.
  repeat match goal with
         | |- context [match i2c ?t ?o with _ => _ end] =>
             destruct (i2c t o) eqn:?
         end;
    intros [= <- <-].
  eauto 12.
Qed.

(** The bytes behind a raw code, for a device that answers with
    bytes. *)
Lemma raw_read_bytes (st st' : state) (raw : Z) :
  byte_device i2c ->
  read_raw_temp i2c st = (Ret raw, st') \/
  read_raw_pressure i2c st = (Ret raw, st') ->
  exists msb lsb xlsb,
    0 <= msb < 256 /\ 0 <= lsb < 256 /\ 0 <= xlsb < 256 /\
    raw = combine msb lsb xlsb.
Proof.
  intros Hdev Hrun.
  destruct Hrun as [Hrun|Hrun];
    [rewrite read_raw_temp_trigger in Hrun
    |rewrite read_raw_pressure_trigger in Hrun];
    cbv zeta in Hrun; destruct (i2c _ _); try discriminate;
    apply read_data_answers in Hrun
      as (msb & lsb & xlsb & t1 & t2 & t3 & H1 & H2 & H3 & ->);
    exists msb, lsb, xlsb;
    pose proof (Hdev _ _ _ H1); pose proof (Hdev _ _ _ H2);
    pose proof (Hdev _ _ _ H3); tauto.
Qed.


(** The only exception of a raw read is the bus failure. *)
Lemma raw_reads_raise_IOError :
  raises_only (eq IOError) (read_raw_temp i2c) /\
  raises_only (eq IOError) (read_raw_pressure i2c).
Proof.
  assert (forall op, raises_only (eq IOError) (bus i2c op)) as Hbus.
  { intros op s e0 s'. unfold bus.
    destruct (i2c _ _); intros [= <- <-]. reflexivity. }
  assert (forall m, raises_only (eq IOError) (settle m)) as Hsettle.
  { intros m s e0 s'. rewrite settle_run. discriminate. }
  assert (forall e1, raises_only (eq IOError) (do_emit e1)) as Hemit.
  { intros e1 s e0 s'. discriminate. }
  split; unfold read_raw_temp, read_raw_pressure, write8, readU8,
    logger_debug;
    repeat first
      [ apply raises_only_ret | apply Hbus | apply Hsettle | apply Hemit
      | intros s0 e0 s0'; discriminate
      | apply raises_only_bind; [|intros ?] ].
Qed.

(** Whatever its outcome, a raw read changes neither the instance
    nor the dict objects, and the only exception it raises is the
    bus failure. *)
Theorem raw_read_fails_only_with_IOError (st st' : state) (r : outcome Z) :
  read_raw_temp i2c st = (r, st') \/ read_raw_pressure i2c st = (r, st') ->
  fst st' = fst st /\ heap (snd st') = heap (snd st) /\
  forall e, r = Raise e -> e = IOError.
Proof.
  intros Hrun.
  assert (fst st' = fst st /\ heap (snd st') = heap (snd st)) as [Hs Hh].
  { destruct Hrun as [Hrun|Hrun];
      [apply read_raw_temp_frame in Hrun|apply read_raw_pressure_frame in Hrun];
      tauto. }
  split; [exact Hs|]. split; [exact Hh|].
  intros e ->. destruct raw_reads_raise_IOError as [HT HP].
  destruct Hrun as [Hrun|Hrun]; symmetry; [eapply HT|eapply HP]; eassumption.
Qed.


(** *** Exceptions of the compensated reads *)

Lemma raises_only_emit E e : raises_only E (do_emit e).
Proof. intros s e0 s'. discriminate. Qed.

Lemma raises_only_get_self E : raises_only E get_self.
Proof. intros s e0 s'. discriminate. Qed.

Lemma raises_only_put_self E f : raises_only E (put_self f).
Proof. intros s e0 s'. discriminate. Qed.

Lemma raises_only_settle E m : raises_only E (settle m).
Proof. intros s e0 s'. rewrite settle_run. discriminate. Qed.

(** Applies the rule for [bind] as far as the program text goes. *)
Ltac exns :=
  repeat first
    [ apply raises_only_ret | apply raises_only_emit
    | apply raises_only_get_self | apply raises_only_put_self
    | apply raises_only_settle | apply raises_only_bus
    | apply raises_only_int_div_float | apply raises_only_when
    | assumption
    | apply raises_only_bind; [|intros ?] ].

Lemma raises_only_read_raw_temp :
  raises_only bus_or_overflow (read_raw_temp i2c).
Proof. unfold read_raw_temp, write8, readU8, logger_debug. exns. Qed.

Lemma raises_only_read_raw_pressure :
  raises_only bus_or_overflow (read_raw_pressure i2c).
Proof. unfold read_raw_pressure, write8, readU8, logger_debug. exns. Qed.

Lemma raises_only_read_temperature :
  raises_only bus_or_overflow (read_temperature i2c).
Proof.
  pose proof raises_only_read_raw_temp.
  unfold read_temperature, logger_debug. exns.
Qed.

(** The division of the pressure formula is guarded by the test on
    [var1]: it can overflow, it cannot divide by zero. *)
Lemma raises_only_compensate_pressure adc_P :
  raises_only bus_or_overflow (compensate_pressure adc_P).
Proof.
  unfold compensate_pressure. apply raises_only_bind; [exns|].
  intros self. cbv zeta.
  destruct (pressure_var1 self =? 0) eqn:E; [exns|].
  apply raises_only_bind; [|intros ?; exns].
  intros s e s'. unfold int_of_truediv. rewrite E.
  destruct (Float.b64 _); intros [= <- <-]. right. reflexivity.
Qed.

Lemma raises_only_read_pressure :
  raises_only bus_or_overflow (read_pressure i2c).
Proof.
  pose proof raises_only_read_raw_pressure.
  pose proof raises_only_read_temperature.
  unfold read_pressure.
  apply raises_only_bind; [exns|intros self].
  apply raises_only_bind; [exns|intros _].
  apply raises_only_bind; [assumption|intros adc_P].
  apply raises_only_compensate_pressure.
Qed.

(** [read_temperature] and [read_pressure] raise nothing but the bus
    failure and the overflow of a conversion to [float]: in
    particular the division by [var1] in the pressure formula never
    raises [ZeroDivisionError], whatever the calibration and the
    raw values. *)
Theorem compensated_reads_raise_bus_or_overflow (st st' : state) (e : exn) :
  read_temperature i2c st = (Raise e, st') \/
  read_pressure i2c st = (Raise e, st') ->
  (e = IOError \/ e = OverflowError) /\ e <> ZeroDivisionError.
Proof.
  intros Hrun.
  assert (bus_or_overflow e) as He.
  { destruct Hrun as [Hrun|Hrun];
      [eapply raises_only_read_temperature|eapply raises_only_read_pressure];
      eassumption. }
  split; [exact He|]. destruct He as [-> | ->]; discriminate.
Qed.

(** A temperature read on bounded inputs returns, or the bus
    fails. *)
Lemma temperature_read_cases (st : state) :
  byte_device i2c ->
  0 <= cal_REGISTER_DIG_T1 (fst st) < 2 ^ 16 ->
  - 2 ^ 15 <= cal_REGISTER_DIG_T2 (fst st) < 2 ^ 15 ->
  - 2 ^ 15 <= cal_REGISTER_DIG_T3 (fst st) < 2 ^ 15 ->
  (exists t st', read_temperature i2c st = (Ret t, st')) \/
  (exists st', read_temperature i2c st = (Raise IOError, st')).
Proof.
  intros Hdev HT1 HT2 HT3.
  destruct (read_raw_temp i2c st) as [[raw|e] st1] eqn:Hraw.
  - destruct (raw_read_bytes st st1 raw Hdev (or_introl Hraw))
      as (msb & lsb & xlsb & Hm & Hl & Hx & Hc).
    assert (0 <= raw < 2 ^ 20) as Hr
      by (rewrite Hc; apply combine_20bit; assumption).
    destruct (read_temperature_formula i2c st st1 raw Hraw Hr HT1 HT2 HT3)
      as (t & _ & Ht).
    left. eauto.
  - right. exists st1. rewrite read_temperature_unfold, Hraw.
    destruct raw_reads_raise_IOError as [HT _].
    rewrite <- (HT _ _ _ Hraw). reflexivity.
Qed.

(** With 16-bit calibration words for the temperature and a device
    that answers byte reads with bytes, [read_temperature] either
    returns or fails with the bus: no conversion overflows. *)
Theorem read_temperature_returns_or_bus_fails
    (st st' : state) (r : outcome Q) :
  byte_device i2c ->
  0 <= cal_REGISTER_DIG_T1 (fst st) < 2 ^ 16 ->
  - 2 ^ 15 <= cal_REGISTER_DIG_T2 (fst st) < 2 ^ 15 ->
  - 2 ^ 15 <= cal_REGISTER_DIG_T3 (fst st) < 2 ^ 15 ->
  read_temperature i2c st = (r, st') ->
  (exists t, r = Ret t) \/ r = Raise IOError.
Proof.
  intros Hdev HT1 HT2 HT3 Hrun.
  destruct (temperature_read_cases st Hdev HT1 HT2 HT3)
    as [(t & st1 & Ht)|(st1 & Ht)];
    rewrite Ht in Hrun; injection Hrun as <- _; eauto.
Qed.

(** *** The sentinel *)

(** The value 0 of [_tfine] means "not read yet", but it is also a
    possible fine temperature.  When the triggered temperature read
    computes 0, [_tfine] is 0 again after [read_pressure], and the
    next [read_pressure] starts with a temperature read once more. *)
Theorem zero_fine_temperature_is_never_cached
    (st st1 st2 : state) (t : Q) (r : outcome pyval) :
  _tfine (fst st) = 0 ->
  read_temperature i2c st = (Ret t, st1) ->
  _tfine (fst st1) = 0 ->
  read_pressure i2c st = (r, st2) ->
  _tfine (fst st2) = 0 /\
  read_pressure i2c st2 =
    (read_temperature i2c ≫= λ _,
       read_raw_pressure i2c ≫= compensate_pressure) st2.
Proof.
  intros Htf Htemp Hzero Hrun.
  rewrite read_pressure_unfold, Htf, (bind_Ret _ _ _ _ _ Htemp) in Hrun.
  apply pressure_body_frame in Hrun as (Hs & _).
  assert (_tfine (fst st2) = 0) as Hz by (rewrite Hs; exact Hzero).
  split; [exact Hz|].
  rewrite read_pressure_unfold, Hz. reflexivity.
Qed.

(** *** What an acquisition leaves alone *)

(** Whatever its outcome, [get_measurement] changes no attribute of
    the instance other than [_tfine]: the mode, the twelve
    calibration words and the enabled channels are as before. *)
Theorem get_measurement_keeps_configuration
    (st st' : state) (r : outcome (gmap Z loc)) :
  get_measurement i2c calculate_altitude st = (r, st') ->
  _mode (fst st') = _mode (fst st) /\
  BMP280Setup.calibration_words (fst st')
    = BMP280Setup.calibration_words (fst st) /\
  enabled_channels (fst st') = enabled_channels (fst st).
Proof.
  intros Hrun.
  apply preserves_get_measurement in Hrun as (Hc & _).
  unfold same_config in Hc. rewrite Hc. repeat split.
Qed.

(** Whatever its outcome, [get_measurement] neither creates nor
    deletes a dict object and changes no entry other than
    ['value']: the ['measurement'] and ['unit'] of every channel are
    as before; and the trace only grows. *)
Theorem get_measurement_keeps_labels
    (st st' : state) (r : outcome (gmap Z loc)) :
  get_measurement i2c calculate_altitude st = (r, st') ->
  (forall l : loc, is_Some (heap (snd st') !! l) <-> is_Some (heap (snd st) !! l)) /\
  (forall (k : Z) (f : string),
     f <> "value" ->
     lookup2 (snd st') measurements_dict k f
     = lookup2 (snd st) measurements_dict k f) /\
  exists evs, trace (snd st') = trace (snd st) ++ evs.
Proof.
  intros Hrun.
  apply preserves_get_measurement in Hrun as (_ & Hl & Ht).
  split; [|split; [|exact Ht]].
  - intros l. specialize (Hl l).
    destruct (heap (snd st) !! l), (heap (snd st') !! l);
      try contradiction; split; intros [x Hx]; try discriminate; eauto.
  - intros k f Hf. unfold lookup2.
    destruct (measurements_dict !! k) as [l|]; [|reflexivity].
    specialize (Hl l).
    destruct (heap (snd st) !! l), (heap (snd st') !! l);
      try contradiction; auto.
Qed.


(** *** The three statements of [get_measurement], state by state *)

Local Abbreviation store_value k v st :=
  (fst st,
   set_heap (alter (insert "value" v) k (heap (snd st))) (snd st)).

Lemma store_run (k : Z) (l : loc) v st inner :
  measurements_dict !! k = Some l ->
  heap (snd st) !! l = Some inner ->
  lift_world (setitem2 measurements_dict k "value" v) st
  = (Ret tt, store_value l v st).
Proof.
  intros Hk Hin. destruct st as [s w]. unfold lift_world, setitem2.
  cbn [fst snd] in *. rewrite Hk, Hin. cbn [fst snd]. do 3 f_equal.
  apply map_eq. intros l'. destruct (decide (l = l')) as [<-|Hne].
  - rewrite lookup_insert_eq, lookup_alter_eq, Hin. reflexivity.
  - rewrite lookup_insert_ne, lookup_alter_ne by assumption. reflexivity.
Qed.

Lemma store_raise (k : Z) (l : loc) v st e st' :
  measurements_dict !! k = Some l ->
  is_Some (heap (snd st) !! l) ->
  lift_world (setitem2 measurements_dict k "value" v) st <> (Raise e, st').
Proof.
  intros Hk [inner Hin]. rewrite (store_run k l v st inner Hk Hin).
  discriminate.
Qed.

Lemma has_objects_step st st' :
  step_ok st st' -> has_objects (heap (snd st)) -> has_objects (heap (snd st')).
Proof.
  intros (_ & Hl & _) Hobj l Hlt. specialize (Hl l).
  destruct (Hobj l Hlt) as [d Hd]. rewrite Hd in Hl.
  destruct (heap (snd st') !! l); [eauto|contradiction].
Qed.

(** The first statement, when channel 0 is enabled. *)
Lemma pressure_statement st :
  enabled_channels (fst st) 0 = true ->
  has_objects (heap (snd st)) ->
  (en0 ← is_enabled 0;
   when en0 (v ← read_pressure i2c;
             lift_world (setitem2 measurements_dict 0 "value" v))) st
  = match read_pressure i2c st with
    | (Ret p, st1) => (Ret tt, store_value 0%nat p st1)
    | (Raise e, st1) => (Raise e, st1)
    end.
Proof.
  intros E0 Hobj. destruct st as [s w]. cbn [fst] in E0.
  cbv beta iota zeta delta [mbind M_bind is_enabled when fst snd].
  rewrite E0. cbv iota.
  destruct (read_pressure i2c (s, w)) as [[p|e] st1] eqn:Hp; [|reflexivity].
  apply preserves_read_pressure in Hp.
  destruct (has_objects_step _ _ Hp Hobj 0%nat) as [inner Hin]; [lia|].
  apply (store_run 0 0%nat p st1 inner eq_refl Hin).
Qed.

(** The second statement, when channel 1 is enabled. *)
Lemma temperature_statement st :
  enabled_channels (fst st) 1 = true ->
  has_objects (heap (snd st)) ->
  (en1 ← is_enabled 1;
   when en1 (v ← read_temperature i2c;
             lift_world (setitem2 measurements_dict 1 "value" (PyFloat v)))) st
  = match read_temperature i2c st with
    | (Ret t, st1) => (Ret tt, store_value 1%nat (PyFloat t) st1)
    | (Raise e, st1) => (Raise e, st1)
    end.
Proof.
  intros E1 Hobj. destruct st as [s w]. cbn [fst] in E1.
  cbv beta iota zeta delta [mbind M_bind is_enabled when fst snd].
  rewrite E1. cbv iota.
  destruct (read_temperature i2c (s, w)) as [[t|e] st1] eqn:Ht; [|reflexivity].
  apply preserves_read_temperature in Ht.
  destruct (has_objects_step _ _ Ht Hobj 1%nat) as [inner Hin]; [lia|].
  apply (store_run 1 1%nat (PyFloat t) st1 inner eq_refl Hin).
Qed.

(** A statement whose channel is disabled does nothing. *)
Lemma disabled_statement k (body : M state unit) st :
  enabled_channels (fst st) k = false ->
  (en ← is_enabled k; when en body) st = (Ret tt, st).
Proof.
  intros E. destruct st as [s w]. cbn [fst] in E.
  cbv beta iota zeta delta [mbind M_bind is_enabled when fst snd mret M_ret].
  rewrite E. reflexivity.
Qed.

(** The third statement, when channels 2 and 0 are enabled and
    channel 0 holds a value. *)
Lemma altitude_statement st p :
  enabled_channels (fst st) 2 = true ->
  enabled_channels (fst st) 0 = true ->
  has_objects (heap (snd st)) ->
  lookup2 (snd st) measurements_dict 0 "value" = Some p ->
  (en2 ← is_enabled 2;
   when en2 (en0' ← is_enabled 0;
             when en0' (p ← lift_world (getitem2 measurements_dict 0 "value");
                        lift_world (setitem2 measurements_dict 2 "value"
                                      (calculate_altitude p))))) st
  = (Ret tt, store_value 2%nat (calculate_altitude p) st).
Proof.
  intros E2 E0 Hobj Hp. destruct st as [s w]. cbn [fst snd] in *.
  destruct (Hobj 2%nat) as [inner Hin]; [lia|].
  cbv beta iota zeta delta [mbind M_bind is_enabled when fst snd].
  rewrite E2. cbv iota. rewrite E0. cbv iota.
  unfold lift_world at 1. unfold getitem2. cbn [fst snd]. rewrite Hp.
  apply (store_run 2 2%nat _ (s, w) inner eq_refl Hin).
Qed.

Lemma store_value_objects (l : loc) v (st : state) :
  has_objects (heap (snd st)) ->
  has_objects (heap (snd (store_value l v st))).
Proof.
  intros Hobj l' Hlt. cbn [fst snd heap set_heap].
  destruct (Hobj l' Hlt) as [d Hd].
  destruct (decide (l = l')) as [<-|Hne].
  - rewrite lookup_alter_eq, Hd. cbn. eauto.
  - rewrite lookup_alter_ne, Hd by assumption. eauto.
Qed.

Lemma store_value_lookup (k : Z) (l : loc) v (st : state) :
  is_Some (heap (snd st) !! l) ->
  measurements_dict !! k = Some l ->
  lookup2 (snd (store_value l v st)) measurements_dict k "value" = Some v.
Proof.
  intros [d Hd] Hk. unfold lookup2. rewrite Hk. cbn [fst snd heap set_heap].
  rewrite lookup_alter_eq, Hd. cbn. apply lookup_insert_eq.
Qed.

Lemma store_value_other (l : loc) v (st : state) (k : Z) (l' : loc) f :
  measurements_dict !! k = Some l' -> l <> l' ->
  lookup2 (snd (store_value l v st)) measurements_dict k f
  = lookup2 (snd st) measurements_dict k f.
Proof.
  intros Hk Hne. unfold lookup2. rewrite Hk. cbn [fst snd heap set_heap].
  rewrite lookup_alter_ne by assumption. reflexivity.
Qed.


Local Abbreviation S1 :=
  (en0 ← is_enabled 0;
   when en0 (v ← read_pressure i2c;
             lift_world (setitem2 measurements_dict 0 "value" v))).

Local Abbreviation S2 :=
  (en1 ← is_enabled 1;
   when en1 (v ← read_temperature i2c;
             lift_world (setitem2 measurements_dict 1 "value" (PyFloat v)))).

Local Abbreviation S3 :=
  (en2 ← is_enabled 2;
   when en2 (en0' ← is_enabled 0;
             when en0' (p ← lift_world (getitem2 measurements_dict 0 "value");
                        lift_world (setitem2 measurements_dict 2 "value"
                                      (calculate_altitude p))))).

Lemma get_measurement_statements st :
  get_measurement i2c calculate_altitude st
  = (S1 ;; S2 ;; S3 ;; mret measurements_dict) st.
Proof. reflexivity. Qed.

Lemma same_config_enabled s s' :
  same_config s s' -> enabled_channels s' = enabled_channels s.
Proof. unfold same_config. intros ->. reflexivity. Qed.

(** The outcomes of the first statement. *)
Lemma S1_outcomes st r st1 :
  has_objects (heap (snd st)) ->
  S1 st = (r, st1) ->
  (r = Ret tt /\ has_objects (heap (snd st1)) /\
   enabled_channels (fst st1) = enabled_channels (fst st) /\
   (enabled_channels (fst st) 0 = true ->
    is_Some (lookup2 (snd st1) measurements_dict 0 "value"))) \/
  (exists e, r = Raise e /\ bus_or_overflow e).
Proof.
  intros Hobj. destruct (enabled_channels (fst st) 0) eqn:E0.
  - rewrite (pressure_statement st E0 Hobj).
    destruct (read_pressure i2c st) as [[p|e] st0] eqn:Hp;
      intros [= <- <-].
    + left. apply preserves_read_pressure in Hp as Hstep.
      pose proof (has_objects_step _ _ Hstep Hobj) as Hobj0.
      split; [reflexivity|]. split; [apply store_value_objects, Hobj0|].
      split; [cbn [fst]; apply same_config_enabled, Hstep|].
      intros _.
      rewrite (store_value_lookup 0 0%nat p st0); [eauto|apply Hobj0; lia|reflexivity].
    + right. exists e. split; [reflexivity|].
      eapply raises_only_read_pressure, Hp.
  - rewrite (disabled_statement 0 _ st E0). intros [= <- <-].
    left. repeat split; [exact Hobj|discriminate].
Qed.

(** The outcomes of the second statement. *)
Lemma S2_outcomes st r st2 :
  has_objects (heap (snd st)) ->
  S2 st = (r, st2) ->
  (r = Ret tt /\ has_objects (heap (snd st2)) /\
   enabled_channels (fst st2) = enabled_channels (fst st) /\
   (is_Some (lookup2 (snd st) measurements_dict 0 "value") ->
    is_Some (lookup2 (snd st2) measurements_dict 0 "value"))) \/
  (exists e, r = Raise e /\ bus_or_overflow e).
Proof.
  intros Hobj. destruct (enabled_channels (fst st) 1) eqn:E1.
  - rewrite (temperature_statement st E1 Hobj).
    destruct (read_temperature i2c st) as [[t|e] st0] eqn:Ht;
      intros [= <- <-].
    + left. apply preserves_read_temperature in Ht as Hstep.
      pose proof (has_objects_step _ _ Hstep Hobj) as Hobj0.
      split; [reflexivity|]. split; [apply store_value_objects, Hobj0|].
      split; [cbn [fst]; apply same_config_enabled, Hstep|].
      rewrite (store_value_other 1%nat (PyFloat t) st0 0 0%nat "value")
        by (reflexivity || lia).
      apply read_temperature_frame in Ht as [Hh _].
      unfold lookup2. rewrite Hh. auto.
    + right. exists e. split; [reflexivity|].
      eapply raises_only_read_temperature, Ht.
  - rewrite (disabled_statement 1 _ st E1). intros [= <- <-].
    left. repeat split; [exact Hobj|auto].
Qed.

(** The third statement never raises once channel 0 holds a value
    whenever it is enabled. *)
Lemma S3_outcomes st r st3 :
  has_objects (heap (snd st)) ->
  (enabled_channels (fst st) 0 = true ->
   is_Some (lookup2 (snd st) measurements_dict 0 "value")) ->
  S3 st = (r, st3) -> r = Ret tt.
Proof.
  intros Hobj Hval.
  destruct (enabled_channels (fst st) 2) eqn:E2;
    [|rewrite (disabled_statement 2 _ st E2); intros [= <- _]; reflexivity].
  destruct (enabled_channels (fst st) 0) eqn:E0.
  - destruct (Hval eq_refl) as [p Hp].
    rewrite (altitude_statement st p E2 E0 Hobj Hp).
    intros [= <- _]. reflexivity.
  - destruct st as [s w]. cbn [fst] in E2, E0.
    cbv beta iota zeta delta
      [mbind M_bind is_enabled when fst snd mret M_ret].
    rewrite E2. cbv iota. rewrite E0. intros [= <- _]. reflexivity.
Qed.

(** While the dict objects of the three channels exist,
    [get_measurement] raises nothing but what its reads raise, the
    bus failure and the overflow: no [KeyError], since the altitude
    reads ['value'] of channel 0 only when channel 0 is enabled and
    has just been stored. *)
Theorem get_measurement_raises_bus_or_overflow
    (st st' : state) (e : exn) :
  has_objects (heap (snd st)) ->
  get_measurement i2c calculate_altitude st = (Raise e, st') ->
  e = IOError \/ e = OverflowError.
Proof.
  intros Hobj. rewrite get_measurement_statements.
  unfold mbind at 1, M_bind at 1.
  destruct (S1 st) as [r1 st1] eqn:H1.
  apply (S1_outcomes st r1 st1 Hobj) in H1
    as [(-> & Hobj1 & Hen1 & Hval1)|(e1 & -> & He1)];
    [|intros [= <- _]; exact He1].
  unfold mbind at 1, M_bind at 1.
  destruct (S2 st1) as [r2 st2] eqn:H2.
  apply (S2_outcomes st1 r2 st2 Hobj1) in H2
    as [(-> & Hobj2 & Hen2 & Hval2)|(e2 & -> & He2)];
    [|intros [= <- _]; exact He2].
  unfold mbind at 1, M_bind at 1.
  destruct (S3 st2) as [r3 st3] eqn:H3.
  apply (S3_outcomes st2 r3 st3 Hobj2) in H3 as ->; [discriminate|].
  rewrite Hen2, Hen1. auto.
Qed.


(** When channels 0 and 1 are enabled, the pressure read returns
    [p] and the temperature read that follows raises,
    [get_measurement] raises that exception, and the dict object of
    channel 0, shared by every record, already carries [p]. *)
Theorem failed_temperature_read_keeps_new_pressure
    (st st1 st2 : state) (p : pyval) (e : exn) :
  enabled_channels (fst st) 0 = true ->
  enabled_channels (fst st) 1 = true ->
  has_objects (heap (snd st)) ->
  read_pressure i2c st = (Ret p, st1) ->
  read_temperature i2c (store_value 0%nat p st1) = (Raise e, st2) ->
  get_measurement i2c calculate_altitude st = (Raise e, st2) /\
  record_value (snd st2) measurements_dict 0 = Some p.
Proof.
  intros E0 E1 Hobj Hp Ht.
  apply preserves_read_pressure in Hp as Hstep.
  pose proof (has_objects_step _ _ Hstep Hobj) as Hobj1.
  pose proof (store_value_objects 0%nat p st1 Hobj1) as Hobj1'.
  assert (enabled_channels (fst (store_value 0%nat p st1)) 1 = true) as E1'
    by (cbn [fst]; rewrite (same_config_enabled _ _ (proj1 Hstep)); exact E1).
  split.
  - rewrite get_measurement_statements.
    rewrite (bind_Ret S1 _ st tt (store_value 0%nat p st1))
      by (rewrite (pressure_statement st E0 Hobj), Hp; reflexivity).
    apply bind_Raise.
    rewrite (temperature_statement _ E1' Hobj1'), Ht. reflexivity.
  - apply read_temperature_frame in Ht as [Hh _].
    unfold record_value, lookup2. rewrite Hh.
    apply (store_value_lookup 0 0%nat p st1); [apply Hobj1; lia|reflexivity].
Qed.

(** With channels 0 and 1 disabled, [get_measurement] returns the
    record at once: no bus traffic, nothing stored, even when the
    altitude channel is enabled. *)
Theorem altitude_alone_reads_nothing (st : state) :
  enabled_channels (fst st) 0 = false ->
  enabled_channels (fst st) 1 = false ->
  get_measurement i2c calculate_altitude st = (Ret measurements_dict, st).
Proof.
  intros E0 E1. destruct st as [s w]. cbn [fst] in E0, E1.
  unfold get_measurement. msimpl. rewrite E0, E1.
  destruct (enabled_channels s 2); cbv beta iota; rewrite ?E0; reflexivity.
Qed.


(** In a [get_measurement] that returns with channels 0 and 1
    enabled, the pressure is read and compensated first, in the
    state found on entry (so with the [_tfine] of an earlier call,
    unless it is 0); the temperature is read after it.  The record
    carries that pressure and this later temperature, and [_tfine]
    ends as the fine temperature of the later read. *)
Theorem pressure_is_read_before_temperature
    (st st' : state) (d : gmap Z loc) :
  enabled_channels (fst st) 0 = true ->
  enabled_channels (fst st) 1 = true ->
  has_objects (heap (snd st)) ->
  get_measurement i2c calculate_altitude st = (Ret d, st') ->
  exists p st1 t ack msb lsb xlsb,
    read_pressure i2c st = (Ret p, st1) /\
    record_value (snd st') d 0 = Some p /\
    record_value (snd st') d 1 = Some (PyFloat t) /\
    trace (snd st') =
      trace (snd st1) ++
      raw_read_events (BMP280_READCMD + Z.shiftl (_mode (fst st)) 6)
        (settle_secs (_mode (fst st))) BMP280_REGISTER_TEMPDATA_MSB
        ack msb lsb xlsb "Raw temperature"
      ++ [EvLog DEBUG "Calibrated temperature" (PyFloat t)] /\
    _tfine (fst st') = TMP_FINE (fst st) (combine msb lsb xlsb).
Proof.
  intros E0 E1 Hobj. rewrite get_measurement_statements.
  (* the pressure *)
  unfold mbind at 1, M_bind at 1.
  rewrite (pressure_statement st E0 Hobj).
  destruct (read_pressure i2c st) as [[p|e] st1] eqn:Hp; [|discriminate].
  apply preserves_read_pressure in Hp as Hstep.
  destruct Hstep as (Hc1 & Hstep1).
  assert (has_objects (heap (snd st1))) as Hobj1
    by (eapply has_objects_step; [split; eassumption|exact Hobj]).
  set (sa := store_value 0%nat p st1).
  assert (has_objects (heap (snd sa))) as Hobja
    by apply store_value_objects, Hobj1.
  assert (enabled_channels (fst sa) = enabled_channels (fst st)) as Hena
    by apply same_config_enabled, Hc1.
  (* the temperature *)
  unfold mbind at 1, M_bind at 1.
  rewrite (temperature_statement sa) by (rewrite ?Hena; assumption).
  destruct (read_temperature i2c sa) as [[t|e] st2] eqn:Ht; [|discriminate].
  apply read_temperature_frame in Ht as Hfr. destruct Hfr as [Hh2 Hen2].
  apply read_temperature_Ret in Ht as (adc & st0 & x & Hraw & _ & _ & Hst2).
  apply read_raw_temp_Ret in Hraw
    as (ack & msb & lsb & xlsb & -> & Hs0 & _ & Ht0).
  set (sb := store_value 1%nat (PyFloat t) st2).
  assert (has_objects (heap (snd st2))) as Hobj2
    by (intros l Hl; rewrite Hh2; apply Hobja, Hl).
  assert (has_objects (heap (snd sb))) as Hobjb
    by apply store_value_objects, Hobj2.
  assert (lookup2 (snd sb) measurements_dict 0 "value" = Some p) as Hp0.
  { unfold sb.
    rewrite (store_value_other 1%nat (PyFloat t) st2 0 0%nat "value")
      by (reflexivity || lia).
    unfold lookup2. rewrite Hh2.
    apply (store_value_lookup 0 0%nat p st1); [apply Hobj1; lia|reflexivity]. }
  assert (lookup2 (snd sb) measurements_dict 1 "value" = Some (PyFloat t))
    as Hp1 by (apply (store_value_lookup 1 1%nat);
               [apply Hobj2; lia|reflexivity]).
  (* the altitude *)
  unfold mbind at 1, M_bind at 1.
  assert (exists st3,
             S3 sb = (Ret tt, st3) /\ fst st3 = fst sb /\
             trace (snd st3) = trace (snd sb) /\
             lookup2 (snd st3) measurements_dict 0 "value" = Some p /\
             lookup2 (snd st3) measurements_dict 1 "value"
             = Some (PyFloat t)) as (st3 & -> & Hf3 & Ht3 & Hv0 & Hv1).
  { destruct (enabled_channels (fst sb) 2) eqn:E2.
    - eexists. split.
      + apply (altitude_statement sb p E2); [|exact Hobjb|exact Hp0].
        cbn [fst sb]. rewrite Hen2, Hena. exact E0.
      + repeat split;
          rewrite ?(store_value_other 2%nat _ sb 0 0%nat "value"),
            ?(store_value_other 2%nat _ sb 1 1%nat "value")
            by (reflexivity || lia); assumption.
    - exists sb. rewrite (disabled_statement 2 _ sb E2). auto. }
  intros [= <- <-].
  exists p, st1, t, ack, msb, lsb, xlsb.
  split; [reflexivity|]. split; [exact Hv0|]. split; [exact Hv1|].
  rewrite Ht3, Hf3. unfold sb. cbn [fst snd trace set_heap].
  rewrite Hst2. cbn [fst snd]. rewrite emit_trace, Ht0, Hs0.
  unfold sa. cbn [fst snd trace set_heap].
  unfold same_config in Hc1. rewrite Hc1, <- app_assoc. split; reflexivity.
Qed.

End Device.

(** *** Closed instances *)

Lemma datasheet_device_answers_bytes : byte_device datasheet_device.
Proof.
  intros tr reg v. unfold datasheet_device, fixed_device.
  repeat match goal with
         | |- context [if ?b then _ else _] => destruct b
         end; intros [= <-]; lia.
Qed.

Lemma import_world_has_objects : has_objects (heap import_world).
Proof.
  intros l Hl.
  assert (l = 0 \/ l = 1 \/ l = 2)%nat as [->|[->| ->]] by lia;
    vm_compute; eauto.
Qed.

(** The datasheet sensor with every channel enabled, before any read,
    and after a first temperature read. *)
Local Abbreviation fresh := (datasheet_sensor (λ _, true), import_world).
Local Abbreviation warm := (snd (read_temperature datasheet_device fresh)).


Lemma raw_read_fails_only_with_IOError_witness :
  let run := read_raw_temp dead_bus fresh in
  run = (Raise IOError, snd run) /\
  fst (snd run) = fst fresh /\ heap (snd (snd run)) = heap (snd fresh) /\
  forall e, (Raise IOError : outcome Z) = Raise e -> e = IOError.
Proof.
  intros run.
  assert (run = (Raise IOError, snd run)) as Hrun by (vm_compute; reflexivity).
  split; [exact Hrun|].
  exact (raw_read_fails_only_with_IOError dead_bus fresh (snd run)
           (Raise IOError) (or_introl Hrun)).
Defined.

Lemma compensated_reads_raise_bus_or_overflow_witness :
  let run := read_pressure no_temperature_device fresh in
  run = (Raise IOError, snd run) /\
  (IOError = IOError \/ IOError = OverflowError) /\
  IOError <> ZeroDivisionError.
Proof.
  intros run.
  assert (run = (Raise IOError, snd run)) as Hrun by (vm_compute; reflexivity).
  split; [exact Hrun|].
  exact (compensated_reads_raise_bus_or_overflow no_temperature_device fresh
           (snd run) IOError (or_intror Hrun)).
Defined.

Lemma read_temperature_returns_or_bus_fails_witness :
  let run := read_temperature datasheet_device fresh in
  (byte_device datasheet_device /\
   0 <= 27504 < 2 ^ 16 /\ - 2 ^ 15 <= 26435 < 2 ^ 15 /\
   - 2 ^ 15 <= -1000 < 2 ^ 15 /\
   run = (fst run, snd run)) /\
  ((exists t, fst run = Ret t) \/ fst run = Raise IOError).
Proof.
  intros run.
  assert (0 <= 27504 < 2 ^ 16) as HT1 by lia.
  assert (- 2 ^ 15 <= 26435 < 2 ^ 15) as HT2 by lia.
  assert (- 2 ^ 15 <= -1000 < 2 ^ 15) as HT3 by lia.
  assert (run = (fst run, snd run)) as Hrun by apply surjective_pairing.
  split;
    [exact (conj datasheet_device_answers_bytes
              (conj HT1 (conj HT2 (conj HT3 Hrun))))|].
  exact (read_temperature_returns_or_bus_fails datasheet_device fresh (snd run)
           (fst run) datasheet_device_answers_bytes HT1 HT2 HT3 Hrun).
Defined.

(** A sensor whose calibration words are all zero computes the fine
    temperature 0. *)
Local Abbreviation zeroed := (blank BMP280_STANDARD (λ _, true), import_world).

Lemma zero_fine_temperature_is_never_cached_witness :
  let st1 := snd (read_temperature datasheet_device zeroed) in
  let run := read_pressure datasheet_device zeroed in
  (_tfine (fst zeroed) = 0 /\
   read_temperature datasheet_device zeroed = (Ret 0%Q, st1) /\
   _tfine (fst st1) = 0 /\
   run = (fst run, snd run)) /\
  _tfine (fst (snd run)) = 0.
Proof.
  intros st1 run.
  assert (read_temperature datasheet_device zeroed = (Ret 0%Q, st1)) as Ht
    by (vm_compute; reflexivity).
  assert (_tfine (fst st1) = 0) as Hz by (vm_compute; reflexivity).
  assert (run = (fst run, snd run)) as Hrun by apply surjective_pairing.
  split; [repeat split; assumption|].
  exact (proj1 (zero_fine_temperature_is_never_cached datasheet_device zeroed
                  st1 (snd run) 0%Q (fst run) eq_refl Ht Hz Hrun)).
Defined.

Lemma get_measurement_keeps_configuration_witness :
  let run := get_measurement datasheet_device altitude_stub fresh in
  run = (fst run, snd run) /\
  _mode (fst (snd run)) = _mode (fst fresh) /\
  BMP280Setup.calibration_words (fst (snd run))
    = BMP280Setup.calibration_words (fst fresh) /\
  enabled_channels (fst (snd run)) = enabled_channels (fst fresh).
Proof.
  intros run.
  assert (run = (fst run, snd run)) as Hrun by apply surjective_pairing.
  split; [exact Hrun|].
  exact (get_measurement_keeps_configuration datasheet_device altitude_stub
           fresh (snd run) (fst run) Hrun).
Defined.

Lemma get_measurement_keeps_labels_witness :
  let run := get_measurement no_temperature_device altitude_stub fresh in
  run = (fst run, snd run) /\
  forall (k : Z) (f : string),
    f <> "value" ->
    lookup2 (snd (snd run)) measurements_dict k f
    = lookup2 (snd fresh) measurements_dict k f.
Proof.
  intros run.
  assert (run = (fst run, snd run)) as Hrun by apply surjective_pairing.
  split; [exact Hrun|].
  exact (proj1 (proj2 (get_measurement_keeps_labels no_temperature_device
                         altitude_stub fresh (snd run) (fst run) Hrun))).
Defined.

Lemma get_measurement_raises_bus_or_overflow_witness :
  let run := get_measurement dead_bus altitude_stub fresh in
  (has_objects (heap (snd fresh)) /\ run = (Raise IOError, snd run)) /\
  (IOError = IOError \/ IOError = OverflowError).
Proof.
  intros run.
  assert (run = (Raise IOError, snd run)) as Hrun by (vm_compute; reflexivity).
  split; [split; [exact import_world_has_objects|exact Hrun]|].
  exact (get_measurement_raises_bus_or_overflow dead_bus altitude_stub fresh
           (snd run) IOError import_world_has_objects Hrun).
Defined.


Lemma failed_temperature_read_keeps_new_pressure_witness :
  let p := PyFloat (25767233 # 256) in
  let st1 := snd (read_pressure no_temperature_device warm) in
  let stored :=
    (fst st1,
     set_heap (alter (insert "value" p) 0%nat (heap (snd st1))) (snd st1)) in
  let st2 := snd (read_temperature no_temperature_device stored) in
  (enabled_channels (fst warm) 0 = true /\
   enabled_channels (fst warm) 1 = true /\
   has_objects (heap (snd warm)) /\
   read_pressure no_temperature_device warm = (Ret p, st1) /\
   read_temperature no_temperature_device stored = (Raise IOError, st2)) /\
  get_measurement no_temperature_device altitude_stub warm
    = (Raise IOError, st2) /\
  record_value (snd st2) measurements_dict 0 = Some p.
Proof.
  intros p st1 stored st2.
  assert (has_objects (heap (snd warm))) as Hobj.
  { intros l Hl.
    assert (l = 0 \/ l = 1 \/ l = 2)%nat as [->|[->| ->]] by lia;
      vm_compute; eauto. }
  assert (read_pressure no_temperature_device warm = (Ret p, st1)) as Hp
    by (vm_compute; reflexivity).
  assert (read_temperature no_temperature_device stored = (Raise IOError, st2))
    as Ht by (vm_compute; reflexivity).
  split; [repeat split; assumption|].
  exact (failed_temperature_read_keeps_new_pressure no_temperature_device
           altitude_stub warm st1 st2 p IOError eq_refl eq_refl Hobj Hp Ht).
Defined.

Lemma altitude_alone_reads_nothing_witness :
  let st := (datasheet_sensor (λ k, k =? 2), import_world) in
  (enabled_channels (fst st) 0 = false /\
   enabled_channels (fst st) 1 = false /\
   enabled_channels (fst st) 2 = true) /\
  get_measurement dead_bus altitude_stub st = (Ret measurements_dict, st).
Proof.
  intros st. split; [repeat split|].
  exact (altitude_alone_reads_nothing dead_bus altitude_stub st
           eq_refl eq_refl).
Defined.

Lemma pressure_is_read_before_temperature_witness :
  let run := get_measurement datasheet_device altitude_stub warm in
  (enabled_channels (fst warm) 0 = true /\
   enabled_channels (fst warm) 1 = true /\
   has_objects (heap (snd warm)) /\
   run = (Ret measurements_dict, snd run)) /\
  exists p st1,
    read_pressure datasheet_device warm = (Ret p, st1) /\
    record_value (snd (snd run)) measurements_dict 0 = Some p.
Proof.
  intros run.
  assert (has_objects (heap (snd warm))) as Hobj.
  { intros l Hl.
    assert (l = 0 \/ l = 1 \/ l = 2)%nat as [->|[->| ->]] by lia;
      vm_compute; eauto. }
  assert (run = (Ret measurements_dict, snd run)) as Hrun
    by (vm_compute; reflexivity).
  split; [repeat split; assumption|].
  destruct (pressure_is_read_before_temperature datasheet_device altitude_stub
              warm (snd run) measurements_dict eq_refl eq_refl Hobj Hrun)
    as (p & st1 & _ & _ & _ & _ & _ & Hp & Hv & _).
  exists p, st1. split; assumption.
Defined.

End BMP280Extra.

(** * Facts about construction *)

Module BMP280SetupFacts.
Import BMP280 BMP280Inv BMP280Setup.

Ltac ssimpl :=
  cbv beta iota zeta delta
    [mbind Setup_bind mret Setup_ret setup_raise readU16LE readS16LE
     _load_calibration].

Section Device.
Variable dev : list setup_event -> setup_op -> option Z.
Variable int16 : string -> option Z.

Lemma mode_check (mode : Z) :
  negb (existsb (Z.eqb mode)
          [BMP280_ULTRALOWPOWER; BMP280_STANDARD;
           BMP280_HIGHRES; BMP280_ULTRAHIGHRES]) = false
  <-> 0 <= mode <= 3.
Proof.
  unfold BMP280_ULTRALOWPOWER, BMP280_STANDARD, BMP280_HIGHRES,
    BMP280_ULTRAHIGHRES. cbn [existsb].
  destruct (mode =? 0) eqn:E0, (mode =? 1) eqn:E1, (mode =? 2) eqn:E2,
    (mode =? 3) eqn:E3; cbn; split; intros H; try lia; try discriminate;
    reflexivity.
Qed.

(** With a mode outside 0..3, construction raises [ValueError]
    before it asks anything of the library: no device handle, no
    register read, no instance. *)
Theorem init_rejects_unknown_mode
    (input : input_dev) (enabled : Z -> bool) (mode : Z)
    (log : list setup_event) :
  ~ 0 <= mode <= 3 ->
  exists msg,
    __init__ dev int16 input enabled mode false log
    = (inl (ValueError msg), log).
Proof.
  intros Hmode. unfold __init__.
  destruct (int16 (i2c_location input)) as [addr|]; [|eauto].
  destruct (negb (existsb _ _)) eqn:E; [eauto|].
  apply mode_check in E. contradiction.
Qed.

(** A construction that returns had a known mode. *)
Lemma returned_with_known_mode
    (input : input_dev) (enabled : Z -> bool) (mode : Z)
    (log log' : list setup_event) (res : option InputModule) :
  __init__ dev int16 input enabled mode false log = (inr res, log') ->
  0 <= mode <= 3.
Proof.
  unfold __init__.
  destruct (int16 (i2c_location input)) as [addr|]; [|discriminate].
  destruct (negb (existsb _ _)) eqn:E; [discriminate|].
  intros _. apply mode_check, E.
Qed.

(** One transaction that returns. *)
Lemma ask_ok op v log :
  dev log op = Some v -> ask dev op log = (inr v, log ++ [EvSetup op (Some v)]).
Proof. intros H. unfold ask. rewrite H. reflexivity. Qed.

Lemma ask_fail op log :
  dev log op = None -> ask dev op log = (inl SetupIOError, log ++ [EvSetup op None]).
Proof. intros H. unfold ask. rewrite H. reflexivity. Qed.

(** *** Lists of transactions *)

Lemma ask_all_ok ops : forall log vs log',
  ask_all dev ops log = (inr vs, log') ->
  length vs = length ops /\
  log' = log ++ answered ops vs /\
  Forall2 (λ op v, exists l, dev l op = Some v) ops vs.
Proof.
  induction ops as [|op ops IH]; intros log vs log'.
  - intros [= <- <-]. rewrite app_nil_r. repeat split. constructor.
  - cbn [ask_all]. ssimpl. unfold ask.
    destruct (dev log op) as [v|] eqn:Hv; [|discriminate].
    destruct (ask_all dev ops _) as [[e|vs'] log1] eqn:Hrest; [discriminate|].
    intros [= <- <-]. apply IH in Hrest as (Hlen & -> & Hall).
    split; [cbn; lia|]. split.
    + rewrite <- app_assoc. reflexivity.
    + constructor; eauto.
Qed.

Lemma ask_all_fail ops : forall log e log',
  ask_all dev ops log = (inl e, log') ->
  e = SetupIOError /\
  exists vs op,
    ops !! length vs = Some op /\
    log' = log ++ answered ops vs ++ [EvSetup op None].
Proof.
  induction ops as [|op ops IH]; intros log e log'.
  - discriminate.
  - cbn [ask_all]. ssimpl. unfold ask.
    destruct (dev log op) as [v|] eqn:Hv.
    + destruct (ask_all dev ops _) as [[e'|vs'] log1] eqn:Hrest;
        [|discriminate].
      intros [= <- <-]. apply IH in Hrest as (-> & vs & op' & Hop & ->).
      split; [reflexivity|]. exists (v :: vs), op'.
      split; [exact Hop|]. rewrite <- app_assoc. reflexivity.
    + intros [= <- <-]. split; [reflexivity|]. exists [], op.
      split; reflexivity.
Qed.

(** [__init__] with a location that parses and a known mode is its
    plan followed by the construction of the instance. *)
Lemma init_as_plan (input : input_dev) (enabled : Z -> bool) (mode : Z)
    (address : Z) (log : list setup_event) :
  int16 (i2c_location input) = Some address ->
  0 <= mode <= 3 ->
  __init__ dev int16 input enabled mode false log
  = match ask_all dev (setup_plan address (i2c_bus input)) log with
    | (inr vs, log') => (inr (instance_of_words mode enabled (tail vs)), log')
    | (inl e, log') => (inl e, log')
    end.
Proof.
  intros Haddr Hmode. unfold __init__. rewrite Haddr.
  apply mode_check in Hmode. rewrite Hmode.
  unfold setup_plan, calibration_plan. cbn [ask_all]. ssimpl. unfold ask.
  repeat match goal with
         | |- context [match dev ?l ?o with _ => _ end] =>
             destruct (dev l o); [|reflexivity]
         end.
  reflexivity.
Qed.


(** A list of twelve words gives an instance. *)
Lemma instance_of_twelve (mode : Z) (enabled : Z -> bool) (ws : list Z) :
  length ws = 12%nat ->
  exists s,
    instance_of_words mode enabled ws = Some s /\
    calibration_words s = ws /\ _mode s = mode /\ _tfine s = 0 /\
    enabled_channels s = enabled.
Proof.
  intros Hlen.
  do 12 (destruct ws as [|? ws]; [discriminate|]).
  destruct ws; [|discriminate]. eexists. repeat split.
Qed.

(** A construction that returns an instance had a known mode, got
    the device handle, then read the twelve calibration registers
    0x88, 0x8A, ..., 0x9E once each in this order, the first and the
    fourth unsigned, the others signed; the instance holds the
    twelve answers, the mode and [_tfine] = 0. *)
Theorem init_loads_calibration_in_order
    (input : input_dev) (enabled : Z -> bool) (mode address : Z)
    (log log' : list setup_event) (s : InputModule) :
  int16 (i2c_location input) = Some address ->
  __init__ dev int16 input enabled mode false log = (inr (Some s), log') ->
  0 <= mode <= 3 /\
  (exists ack,
     log' = log ++ EvSetup (GetI2CDevice address (i2c_bus input)) (Some ack)
                   :: answered calibration_plan (calibration_words s)) /\
  _mode s = mode /\ _tfine s = 0 /\ enabled_channels s = enabled.
Proof.
  intros Haddr Hrun.
  pose proof (returned_with_known_mode _ _ _ _ _ _ Hrun) as Hmode.
  split; [exact Hmode|].
  rewrite (init_as_plan input enabled mode address log Haddr Hmode) in Hrun.
  destruct (ask_all dev _ log) as [[e|vs] log1] eqn:Hplan; [discriminate|].
  apply ask_all_ok in Hplan as (Hlen & -> & _).
  destruct vs as [|ack ws]; [discriminate|]. cbn [tail] in Hrun.
  destruct (instance_of_twelve mode enabled ws) as (s' & Hs' & Hws & Hm & Ht & He);
    [cbn in Hlen; lia|].
  rewrite Hs' in Hrun. injection Hrun as <- <-.
  rewrite Hws. split; [exists ack; reflexivity|]. auto.
Qed.

(** When the library answers the word reads with words (16-bit
    unsigned for [readU16LE], 16-bit signed for [readS16LE]), the
    calibration of a constructed instance has the widths that the
    compensation expects; on a device that answers byte reads with
    bytes, its [read_temperature] then returns or fails with the
    bus, and raises nothing else. *)
Theorem constructed_instance_reads_temperature
    (input : input_dev) (enabled : Z -> bool) (mode address : Z)
    (log log' : list setup_event) (s : InputModule) :
  word_device dev ->
  int16 (i2c_location input) = Some address ->
  __init__ dev int16 input enabled mode false log = (inr (Some s), log') ->
  calibration_in_range s /\
  forall (i2c : list event -> i2c_op -> option Z) (w : world)
         (r : outcome Q) (st' : state),
    byte_device i2c ->
    read_temperature i2c (s, w) = (r, st') ->
    (exists t, r = Ret t) \/ r = Raise IOError.
Proof.
  intros Hdev Haddr Hrun.
  assert (calibration_in_range s) as Hrange.
  { pose proof (returned_with_known_mode _ _ _ _ _ _ Hrun) as Hmode.
    rewrite (init_as_plan input enabled mode address log Haddr Hmode) in Hrun.
    destruct (ask_all dev _ log) as [[e|vs] log1] eqn:Hplan; [discriminate|].
    apply ask_all_ok in Hplan as (Hlen & _ & Hall).
    unfold setup_plan, calibration_plan in Hall.
    repeat match goal with
           | H : Forall2 _ (_ :: _) _ |- _ =>
               apply Forall2_cons_inv_l in H as (? & ? & [? ?] & H & ->)
           | H : Forall2 _ [] _ |- _ => apply Forall2_nil_inv_l in H as ->
           end.
    cbn [tail instance_of_words] in Hrun. injection Hrun as <- _.
    unfold calibration_in_range. cbn.
    repeat match goal with
           | H : dev _ (ReadU16LE _) = Some _ |- _ =>
               apply (proj1 (Hdev _ _ _)) in H
           | H : dev _ (ReadS16LE _) = Some _ |- _ =>
               apply (proj2 (Hdev _ _ _)) in H
           end.
    repeat split; try lia. repeat constructor; lia. }
  split; [exact Hrange|].
  intros i2c w r st' Hbytes Hread.
  destruct Hrange as (HT1 & HT2 & HT3 & _).
  destruct (BMP280Extra.temperature_read_cases i2c (s, w) Hbytes HT1 HT2 HT3)
    as [(t & st1 & Ht)|(st1 & Ht)];
    rewrite Ht in Hread; injection Hread as <- _; eauto.
Qed.

(** A construction in which a transaction fails raises the bus
    failure at that transaction: the log ends with it, everything
    before it was answered, in the order of the plan, and nothing is
    asked after it. *)
Theorem init_stops_at_first_failure
    (input : input_dev) (enabled : Z -> bool) (mode address : Z)
    (log log' : list setup_event) (e : setup_exn) :
  int16 (i2c_location input) = Some address ->
  0 <= mode <= 3 ->
  __init__ dev int16 input enabled mode false log = (inl e, log') ->
  e = SetupIOError /\
  exists vs op,
    setup_plan address (i2c_bus input) !! length vs = Some op /\
    log' = log ++ answered (setup_plan address (i2c_bus input)) vs
               ++ [EvSetup op None].
Proof.
  intros Haddr Hmode Hrun.
  rewrite (init_as_plan input enabled mode address log Haddr Hmode) in Hrun.
  destruct (ask_all dev _ log) as [[e'|vs] log1] eqn:Hplan; [|discriminate].
  injection Hrun as <- <-. eapply ask_all_fail, Hplan.
Qed.

End Device.

Lemma datasheet_eeprom_answers_words : word_device datasheet_eeprom.
Proof.
  intros log reg v. unfold datasheet_eeprom. cbv zeta.
  assert (0 <= datasheet_word reg < 65536) as Hw
    by (apply Z.mod_pos_bound; lia).
  split; intros [= <-]; [lia|].
  destruct (32768 <=? datasheet_word reg) eqn:E; lia.
Qed.

Lemma init_rejects_unknown_mode_witness :
  ~ 0 <= 4 <= 3 /\
  exists msg,
    __init__ datasheet_eeprom int16_locations bmp280_at_0x76 (λ _, true) 4
      false []
    = (inl (ValueError msg), []).
Proof.
  assert (~ 0 <= 4 <= 3) as Hmode by lia.
  split; [exact Hmode|].
  exact (init_rejects_unknown_mode datasheet_eeprom int16_locations
           bmp280_at_0x76 (λ _, true) 4 [] Hmode).
Defined.

Local Abbreviation built :=
  (__init__ datasheet_eeprom int16_locations bmp280_at_0x76 (λ _, true)
     BMP280_HIGHRES false []).

Lemma init_loads_calibration_in_order_witness :
  let s := set_tfine 0 (Build BMP280_HIGHRES
                          27504 26435 (-1000) 36477 (-10685) 3024 2855 140
                          (-7) 15500 (-14600) 6000 0 (λ _, true)) in
  (int16_locations (i2c_location bmp280_at_0x76) = Some 0x76 /\
   built = (inr (Some s), snd built)) /\
  0 <= BMP280_HIGHRES <= 3 /\
  (exists ack,
     snd built = [] ++ EvSetup (GetI2CDevice 0x76 1) (Some ack)
                       :: answered calibration_plan (calibration_words s)) /\
  _mode s = BMP280_HIGHRES /\ _tfine s = 0 /\
  enabled_channels s = (λ _, true).
Proof.
  intros s.
  assert (built = (inr (Some s), snd built)) as Hrun by (vm_compute; reflexivity).
  split; [split; [reflexivity|exact Hrun]|].
  exact (init_loads_calibration_in_order datasheet_eeprom int16_locations
           bmp280_at_0x76 (λ _, true) BMP280_HIGHRES 0x76 [] (snd built) s
           eq_refl Hrun).
Defined.

Lemma constructed_instance_reads_temperature_witness :
  let s := set_tfine 0 (Build BMP280_HIGHRES
                          27504 26435 (-1000) 36477 (-10685) 3024 2855 140
                          (-7) 15500 (-14600) 6000 0 (λ _, true)) in
  (word_device datasheet_eeprom /\
   int16_locations (i2c_location bmp280_at_0x76) = Some 0x76 /\
   built = (inr (Some s), snd built)) /\
  calibration_in_range s.
Proof.
  intros s.
  assert (built = (inr (Some s), snd built)) as Hrun by (vm_compute; reflexivity).
  split; [exact (conj datasheet_eeprom_answers_words (conj eq_refl Hrun))|].
  exact (proj1 (constructed_instance_reads_temperature datasheet_eeprom
                  int16_locations bmp280_at_0x76 (λ _, true) BMP280_HIGHRES
                  0x76 [] (snd built) s datasheet_eeprom_answers_words
                  eq_refl Hrun)).
Defined.

Lemma init_stops_at_first_failure_witness :
  let run := __init__ failing_eeprom int16_locations bmp280_at_0x76
               (λ _, true) BMP280_STANDARD false [] in
  (int16_locations (i2c_location bmp280_at_0x76) = Some 0x76 /\
   0 <= BMP280_STANDARD <= 3 /\
   run = (inl SetupIOError, snd run)) /\
  SetupIOError = SetupIOError /\
  exists vs op,
    setup_plan 0x76 1 !! length vs = Some op /\
    snd run = [] ++ answered (setup_plan 0x76 1) vs ++ [EvSetup op None].
Proof.
  intros run.
  assert (0 <= BMP280_STANDARD <= 3) as Hmode by (unfold BMP280_STANDARD; lia).
  assert (run = (inl SetupIOError, snd run)) as Hrun by (vm_compute; reflexivity).
  split; [exact (conj eq_refl (conj Hmode Hrun))|].
  exact (init_stops_at_first_failure failing_eeprom int16_locations
           bmp280_at_0x76 (λ _, true) BMP280_STANDARD 0x76 [] (snd run)
           SetupIOError eq_refl Hmode Hrun).
Defined.

End BMP280SetupFacts.

(** * Further facts about the DS1822 input *)

Module DS1822Extra.
Import DS1822 DS1822Inv DS1822Facts.

Local Abbreviation fault_log :=
  (EvLog ERROR
     "Measurement returned 85 C, indicating an issue communicating with the sensor."
     PyNone).

Section Device.
Variable w1 : list event -> string + Q.





End Device.




Lemma second_attempt_value_is_taken_witness :
  let inner : gmap string pyval :=
    <["measurement" := PyStr "temperature"]> (<["unit" := PyStr "C"]> ∅) in
  (flaky (215 # 10) (trace import_world) = inl "SensorNotReadyError" /\
   flaky (215 # 10)
     (trace import_world ++ [EvW1 (inl "SensorNotReadyError"); EvSleep 1])
   = inr (215 # 10) /\
   ~ ((215 # 10) == 85)%Q /\
   heap import_world !! 0%nat = Some inner) /\
  get_measurement (flaky (215 # 10)) import_world =
    (Ret (Some measurements_dict),
     World (trace import_world ++
              [EvW1 (inl "SensorNotReadyError"); EvSleep 1; EvW1 (inr (215 # 10))])
       (<[0%nat := <["value" := PyFloat (215 # 10)]> inner]> (heap import_world))).
Proof.
  intros inner.
  assert (~ ((215 # 10) == 85)%Q) as Hne by (intros H; discriminate H).
  split; [exact (conj eq_refl (conj eq_refl (conj Hne eq_refl)))|].
  exact (second_attempt_value_is_taken (flaky (215 # 10)) import_world
           "SensorNotReadyError" (215 # 10) inner eq_refl eq_refl Hne eq_refl).
Defined.


End DS1822Extra.

Module DS1822SetupFacts.
Import DS1822Setup.

(** The resolutions that count as "not given": [None], the empty
    string of the "Use Chip Default" choice, and 0. *)
Lemma chip_default_is_falsy :
  truthy PyNone = false /\ truthy (PyStr "") = false /\ truthy (PyInt 0) = false.
Proof. repeat split. Qed.

(** Construction opens the sensor at the location first; if that
    raises, nothing else is called.  The precision is set if and only
    if a resolution is given (not [None], [''] or 0), once, after the
    sensor was opened, and with that very value: the code itself does
    not check that it is one of 9..12, the library does.  An instance
    exists exactly when every call returned. *)
Theorem init_sets_precision_only_when_given
    (lib : list setup_event -> setup_op -> bool) (input : input_dev)
    (log : list setup_event) :
  let open := W1ThermSensor_DS1822 (location input) in
  let prec := set_precision (resolution input) in
  let self := Build (location input) (resolution input) in
  (lib log open = false ->
   __init__ lib input false log
   = (inl (LibraryError open), log ++ [EvSetup open false])) /\
  (lib log open = true -> truthy (resolution input) = false ->
   __init__ lib input false log = (inr (Some self), log ++ [EvSetup open true])) /\
  (lib log open = true -> truthy (resolution input) = true ->
   let ok := lib (log ++ [EvSetup open true]) prec in
   __init__ lib input false log
   = (if ok then inr (Some self) else inl (LibraryError prec),
      log ++ [EvSetup open true; EvSetup prec ok])).
Proof.
  intros open prec self. unfold __init__.
  cbv beta iota zeta delta [mbind Setup_bind mret Setup_ret call].
  fold open prec self.
  repeat split.
  - intros ->. reflexivity.
  - intros -> ->. reflexivity.
  - intros -> ->. cbv iota.
    destruct (lib (log ++ [EvSetup open true]) prec);
      rewrite <- app_assoc; reflexivity.
Qed.

Lemma init_sets_precision_only_when_given_witness :
  let default := InputDev "28-0000" "0000075e1c2a" (PyStr "") in
  let thirteen := InputDev "28-0000" "0000075e1c2a" (PyInt 13) in
  (strict_lib [] (W1ThermSensor_DS1822 "0000075e1c2a") = true /\
   truthy (PyStr "") = false /\ truthy (PyInt 13) = true) /\
  __init__ strict_lib default false []
  = (inr (Some (Build "0000075e1c2a" (PyStr ""))),
     [EvSetup (W1ThermSensor_DS1822 "0000075e1c2a") true]) /\
  __init__ strict_lib thirteen false []
  = (inl (LibraryError (set_precision (PyInt 13))),
     [EvSetup (W1ThermSensor_DS1822 "0000075e1c2a") true;
      EvSetup (set_precision (PyInt 13)) false]).
Proof.
  intros default thirteen. split; [repeat split|]. split.
  - exact (proj1 (proj2 (init_sets_precision_only_when_given strict_lib
                           default [])) eq_refl eq_refl).
  - exact (proj2 (proj2 (init_sets_precision_only_when_given strict_lib
                           thirteen [])) eq_refl eq_refl).
Defined.

End DS1822SetupFacts.
